(** * LLMHelper: the provider gateway of interview-helper-ai

    A shallow embedding of [src/electron/LLMHelper.ts].  The class talks to
    three outside parties: the Ollama HTTP server, the Gemini SDK and the
    file system (plus the wall clock).  Their answers are not under the
    program's control, so they are gathered in a [World]: every answer is a
    function of the history of interactions issued so far and of the request.
    The methods of the class become computations in a small monad that
    threads the object's fields and the history, and that can throw.

    Console output ([console.log], [console.warn], [console.error]) has no
    influence on any value or field and is left out. *)

From Stdlib Require Import String Ascii List Bool Arith NArith ZArith Lia.
From Stdlib Require Import DecimalString.
Import ListNotations.
Local Open Scope string_scope.

(** ** Values thrown and returned *)

(** A thrown JavaScript error: its constructor name and its [message]. *)
Record JsError : Type := mkError { errName : string; message : string }.

Definition Error (msg : string) : JsError := mkError "Error" msg.
Definition TypeError (msg : string) : JsError := mkError "TypeError" msg.

Inductive Outcome (A : Type) : Type :=
| Return (a : A)
| Throw (e : JsError).
Arguments Return {A} a.
Arguments Throw {A} e.

Definition returned {A} (o : Outcome A) : bool :=
  match o with Return _ => true | Throw _ => false end.

Definition thrown {A} (o : Outcome A) : bool := negb (returned o).

(** ** The object's fields *)

(** A handle on a cloud model, as returned by
    [new GoogleGenerativeAI(apiKey).getGenerativeModel({ model })]. *)
Record GenerativeModel : Type := mkModel { apiKey : string; modelId : string }.

Record LLMHelper : Type := mkHelper {
  model : option GenerativeModel;      (* GenerativeModel | null *)
  useOllama : bool;
  ollamaModel : string;
  ollamaUrl : string
}.

(** ** Requests and replies *)

Record InlineData : Type := mkInline { data : string; mimeType : string }.

(** One element of the argument of [generateContent]. *)
Inductive Part : Type :=
| TextPart (text : string)
| InlinePart (inlineData : InlineData).

(** The JSON body posted to [/api/generate]; [stream] is always [false] and
    the sampling options are the literals of the source. *)
Record GenerateBody : Type := mkBody {
  body_model : string;
  body_prompt : string;
  body_stream : bool;
  body_temperature : string;
  body_top_p : string
}.

Record OllamaResponse : Type := mkOllamaResponse { response : string; done : bool }.

(** What [/api/tags] answers: [{models: [{name, ...}]}], where [models] may be
    missing. *)
Record TagsJson : Type := mkTags { models : option (list string) }.

(** [response.json()] either yields the parsed body or rejects. *)
Inductive JsonReply (A : Type) : Type :=
| Json (value : A)
| JsonRejects (e : JsError).
Arguments Json {A} value.
Arguments JsonRejects {A} e.

(** [fetch] either rejects (server unreachable) or resolves to a response
    with a status line and a body. *)
Inductive FetchReply (A : Type) : Type :=
| FetchRejects (e : JsError)
| Response (status : nat) (statusText : string) (body : JsonReply A).
Arguments FetchRejects {A} e.
Arguments Response {A} status statusText body.

(** [response.ok]: the status is in the range 200-299. *)
Definition ok (status : nat) : bool := ((200 <=? status) && (status <=? 299))%nat.

(** [response.text()] of the cloud SDK either yields a string or throws. *)
Inductive TextReply : Type :=
| Text (text : string)
| TextThrows (e : JsError).

Inductive CloudReply : Type :=
| CloudRejects (e : JsError)
| CloudResponse (text : TextReply).

Inductive FileReply : Type :=
| FileRejects (e : JsError)
| FileBytes (bytes : list ascii).

(** ** Interactions with the outside *)

Inductive Event : Type :=
| EvFetchTags (url : string)                          (* GET  <url> *)
| EvFetchGenerate (url : string) (body : GenerateBody) (* POST <url> *)
| EvGenerateContent (m : GenerativeModel) (request : list Part)
| EvReadFile (path : string)
| EvDateNow.

(** Newest interaction first. *)
Definition History : Type := list Event.

Record World : Type := mkWorld {
  fetchTags : History -> string -> FetchReply TagsJson;
  fetchGenerate : History -> string -> GenerateBody -> FetchReply OllamaResponse;
  generateContent : History -> GenerativeModel -> list Part -> CloudReply;
  readFile : History -> string -> FileReply;
  dateNow : History -> Z
}.

Record State : Type := mkState { this : LLMHelper; history : History }.

(** ** The monad of methods *)

Definition M (A : Type) : Type := World -> State -> Outcome A * State.

Definition ret {A} (a : A) : M A := fun _ s => (Return a, s).

Definition throw {A} (e : JsError) : M A := fun _ s => (Throw e, s).

Definition bind {A B} (m : M A) (k : A -> M B) : M B :=
  fun w s =>
    match m w s with
    | (Return a, s') => k a w s'
    | (Throw e, s') => (Throw e, s')
    end.

(** [try { m } catch (error) { handler error }]: the fields written and the
    requests issued before the throw stay. *)
Definition try_catch {A} (m : M A) (handler : JsError -> M A) : M A :=
  fun w s =>
    match m w s with
    | (Return a, s') => (Return a, s')
    | (Throw e, s') => handler e w s'
    end.

Declare Scope method_scope.
Delimit Scope method_scope with method.
Notation "x <- m ;; k" := (bind m (fun x => k))
  (at level 61, m at next level, right associativity) : method_scope.
Notation "m ;; k" := (bind m (fun _ => k))
  (at level 61, right associativity) : method_scope.
Notation "' pat <- m ;; k" := (bind m (fun x => let 'pat := x in k))
  (at level 61, pat pattern, m at next level, right associativity) : method_scope.
Local Open Scope method_scope.

Definition getThis : M LLMHelper := fun _ s => (Return (this s), s).

Definition setThis (f : LLMHelper -> LLMHelper) : M unit :=
  fun _ s => (Return tt, mkState (f (this s)) (history s)).

Definition set_model (g : option GenerativeModel) (o : LLMHelper) : LLMHelper :=
  mkHelper g (useOllama o) (ollamaModel o) (ollamaUrl o).
Definition set_useOllama (b : bool) (o : LLMHelper) : LLMHelper :=
  mkHelper (model o) b (ollamaModel o) (ollamaUrl o).
Definition set_ollamaModel (m : string) (o : LLMHelper) : LLMHelper :=
  mkHelper (model o) (useOllama o) m (ollamaUrl o).
Definition set_ollamaUrl (u : string) (o : LLMHelper) : LLMHelper :=
  mkHelper (model o) (useOllama o) (ollamaModel o) u.

(** An interaction: the world answers from the history so far, then the
    request joins the history. *)
Definition interact {A} (ev : Event) (answer : World -> History -> A) : M A :=
  fun w s => (Return (answer w (history s)), mkState (this s) (ev :: history s)).

Definition fetch_tags (url : string) : M (FetchReply TagsJson) :=
  interact (EvFetchTags url) (fun w h => fetchTags w h url).

Definition fetch_generate (url : string) (b : GenerateBody)
  : M (FetchReply OllamaResponse) :=
  interact (EvFetchGenerate url b) (fun w h => fetchGenerate w h url b).

Definition fs_readFile (path : string) : M FileReply :=
  interact (EvReadFile path) (fun w h => readFile w h path).

Definition Date_now : M Z := interact EvDateNow dateNow.

(** [await fetch(...)]: a rejected promise throws at the [await]. *)
Definition await_fetch {A} (m : M (FetchReply A)) : M (nat * string * JsonReply A) :=
  r <- m ;;
  match r with
  | FetchRejects e => throw e
  | Response st txt b => ret (st, txt, b)
  end.

Definition await_json {A} (b : JsonReply A) : M A :=
  match b with
  | Json v => ret v
  | JsonRejects e => throw e
  end.

(** ** JavaScript odds and ends *)

(** Truthiness of an optional string argument: [undefined] and the empty
    string are falsy. *)
Definition truthy (o : option string) : bool :=
  match o with
  | Some s => negb (s =? "")
  | None => false
  end.

(** [a || dflt] on an optional string. *)
Definition or_default (o : option string) (dflt : string) : string :=
  match o with
  | Some s => if s =? "" then dflt else s
  | None => dflt
  end.

(** [Array.prototype.includes] on strings. *)
Definition includes (l : list string) (x : string) : bool :=
  existsb (fun y => y =? x) l.

(** A number inside a template literal. *)
Definition show_nat (n : nat) : string := NilEmpty.string_of_uint (Nat.to_uint n).

Definition dq : string := String (ascii_of_nat 34) EmptyString.
Definition nl : string := String (ascii_of_nat 10) EmptyString.

(** [Buffer.toString("base64")]: standard alphabet, padded. *)
Definition base64_alphabet : string :=
  "ABCDEFGHIJKLMNOPQRSTUVWXYZabcdefghijklmnopqrstuvwxyz0123456789+/".

Definition base64_digit (n : nat) : ascii :=
  match String.get n base64_alphabet with
  | Some c => c
  | None => "="%char
  end.

Fixpoint base64 (bytes : list ascii) : string :=
  match bytes with
  | [] => ""
  | [a] =>
      let x := nat_of_ascii a in
      String (base64_digit (x / 4))
        (String (base64_digit ((x mod 4) * 16)) "==")
  | [a; b] =>
      let x := nat_of_ascii a in
      let y := nat_of_ascii b in
      String (base64_digit (x / 4))
        (String (base64_digit ((x mod 4) * 16 + y / 16))
           (String (base64_digit ((y mod 16) * 4)) "="))
  | a :: b :: c :: rest =>
      let x := nat_of_ascii a in
      let y := nat_of_ascii b in
      let z := nat_of_ascii c in
      String (base64_digit (x / 4))
        (String (base64_digit ((x mod 4) * 16 + y / 16))
           (String (base64_digit ((y mod 16) * 4 + z / 64))
              (String (base64_digit (z mod 64)) (base64 rest))))
  end.

(** [Promise.all(ps)]: every promise of [ps] has been started, so every one
    runs; the result rejects as soon as one of them does.  Which rejection
    wins when several reject is a matter of timing; the embedding takes the
    first in the order of the list. *)
Fixpoint Promise_all {A} (ps : list (M A)) : M (list A) :=
  match ps with
  | [] => ret []
  | p :: rest =>
      fun w s =>
        let (o, s1) := p w s in
        let (os, s2) := Promise_all rest w s1 in
        (match o, os with
         | Throw e, _ => Throw e
         | Return _, Throw e => Throw e
         | Return a, Return l => Return (a :: l)
         end, s2)
  end.

(** ** The class *)

Record GenerationResult : Type := mkResult { text : string; timestamp : Z }.

Record ConnectionResult : Type := mkConnection { success : bool; error : option string }.

Inductive Provider : Type := ollama | gemini.

Definition systemPrompt : string :=
  nl ++ "You are Wingman AI, the user's interview voice." ++ nl ++
  nl ++
  "Your job is to generate direct, natural spoken answers in the first person ("
    ++ dq ++ "I" ++ dq ++ ") — as if the user is answering live in an interview." ++ nl ++
  nl ++
  "Do NOT describe how to answer or explain your reasoning." ++ nl ++
  "Do NOT list options or steps." ++ nl ++
  "Simply produce the final, fluent response that sounds confident, friendly, and professional." ++ nl ++
  nl ++
  "Each answer should:" ++ nl ++
  "- Be concise (3–6 sentences)." ++ nl ++
  "- Sound natural when read aloud." ++ nl ++
  "- Reflect the user's real experience as a QA Engineer (manual & automation testing, CI/CD, API testing, etc.)." ++ nl ++
  "- Use active voice and confident tone." ++ nl.

Definition gemini_flash : string := "gemini-2.0-flash".
Definition default_url : string := "http://localhost:11434".

(** The field initialisers of the class. *)
Definition fresh : LLMHelper :=
  mkHelper None false "llama3.2" default_url.

(** [new GoogleGenerativeAI(apiKey).getGenerativeModel({ model: ... })]. *)
Definition getGenerativeModel (key : string) : GenerativeModel :=
  mkModel key gemini_flash.

Definition fileToGenerativePart (imagePath : string) : M Part :=
  r <- fs_readFile imagePath ;;
  match r with
  | FileRejects e => throw e
  | FileBytes imageData => ret (InlinePart (mkInline (base64 imageData) "image/png"))
  end.

Definition callOllama (prompt : string) : M string :=
  try_catch
    (o <- getThis ;;
     '(status, statusText, body) <-
        await_fetch (fetch_generate (ollamaUrl o ++ "/api/generate")
                       (mkBody (ollamaModel o) prompt false "0.7" "0.9")) ;;
     if negb (ok status) then
       throw (Error ("Ollama API error: " ++ show_nat status ++ " " ++ statusText))
     else
       data <- await_json body ;;
       ret (response data))
    (fun error =>
       o <- getThis ;;
       throw (Error ("Failed to connect to Ollama: " ++ message error
                       ++ ". Make sure Ollama is running on " ++ ollamaUrl o))).

Definition checkOllamaAvailable : M bool :=
  try_catch
    (o <- getThis ;;
     '(status, _, _) <- await_fetch (fetch_tags (ollamaUrl o ++ "/api/tags")) ;;
     ret (ok status))
    (fun _ => ret false).

Definition getOllamaModels : M (list string) :=
  o <- getThis ;;
  if negb (useOllama o) then ret []
  else
    try_catch
      ('(status, _, body) <- await_fetch (fetch_tags (ollamaUrl o ++ "/api/tags")) ;;
       if negb (ok status) then throw (Error "Failed to fetch models")
       else
         data <- await_json body ;;
         ret (match models data with
              | Some names => names
              | None => []
              end))
      (fun _ => ret []).

Definition initializeOllamaModel : M unit :=
  try_catch
    (availableModels <- getOllamaModels ;;
     match availableModels with
     | [] => ret tt
     | first :: _ =>
         o <- getThis ;;
         (if negb (includes availableModels (ollamaModel o))
          then setThis (set_ollamaModel first)
          else ret tt) ;;
         _ <- callOllama "Hello" ;;
         ret tt
     end)
    (fun _ =>
       try_catch
         (models <- getOllamaModels ;;
          match models with
          | first :: _ => setThis (set_ollamaModel first)
          | [] => ret tt
          end)
         (fun _ => ret tt)).

(** [this.model.generateContent(request)] followed by [await result.response]:
    dereferencing a [null] handle throws before anything is sent. *)
Definition model_generateContent (request : list Part) : M TextReply :=
  o <- getThis ;;
  match model o with
  | None => throw (TypeError "Cannot read properties of null (reading 'generateContent')")
  | Some g =>
      r <- interact (EvGenerateContent g request)
             (fun w h => generateContent w h g request) ;;
      match r with
      | CloudRejects e => throw e
      | CloudResponse t => ret t
      end
  end.

(** [response.text()]. *)
Definition response_text (t : TextReply) : M string :=
  match t with
  | Text s => ret s
  | TextThrows e => throw e
  end.

(** [return { text: response.text(), timestamp: Date.now() }]. *)
Definition text_and_timestamp (t : TextReply) : M GenerationResult :=
  txt <- response_text t ;;
  now <- Date_now ;;
  ret (mkResult txt now).

Definition extractProblemFromImages (imagePaths : list string) : M GenerationResult :=
  try_catch
    (imageParts <- Promise_all (map fileToGenerativePart imagePaths) ;;
     let prompt := systemPrompt ++ nl ++
       "  You are viewing images that contain an interview question or technical scenario." ++ nl ++
       "  Describe briefly, in natural first-person language (" ++ dq ++ "I" ++ dq ++
       "), what the question or situation is about, as if I'm explaining it to an interviewer." ++ nl ++
       "  Then give a clear, confident spoken answer that I could say during an interview." ++ nl ++
       "  Be concise (3–6 sentences). Do NOT output JSON or code blocks." in
     response <- model_generateContent (TextPart prompt :: imageParts) ;;
     text_and_timestamp response)
    (fun err => throw err).

(** [problemInfo] stands for the text [JSON.stringify(problemInfo, null, 2)]
    of the caller's object. *)
Definition generateSolution (problemInfo : string) : M GenerationResult :=
  let prompt := systemPrompt ++ nl ++
    "  You are preparing me to answer this interview question or scenario:" ++ nl ++
    "  " ++ problemInfo ++ nl ++
    nl ++
    "  Respond in natural spoken first-person English, as if I'm speaking in the interview." ++ nl ++
    "  Be confident, concise (3–6 sentences), and professional." ++ nl ++
    "  Do NOT return JSON, reasoning, or code blocks — only the final answer I would say aloud." in
  try_catch
    (response <- model_generateContent [TextPart prompt] ;;
     text_and_timestamp response)
    (fun err => throw err).

Definition debugSolutionWithImages (problemInfo currentCode : string)
    (debugImagePaths : list string) : M GenerationResult :=
  try_catch
    (imageParts <- Promise_all (map fileToGenerativePart debugImagePaths) ;;
     let prompt := systemPrompt ++ nl ++
       "  Given this interview question or task:" ++ nl ++
       "  " ++ problemInfo ++ nl ++
       nl ++
       "  And my current draft answer or approach:" ++ nl ++
       "  " ++ currentCode ++ nl ++
       nl ++
       "  Using the new information visible in these images, refine my answer." ++ nl ++
       "  Output a short, improved, confident first-person response suitable for speaking aloud." ++ nl ++
       "  Do NOT include JSON or reasoning — only the updated spoken answer." in
     response <- model_generateContent (TextPart prompt :: imageParts) ;;
     text_and_timestamp response)
    (fun err => throw err).

Definition analyzeAudioFile (audioPath : string) : M GenerationResult :=
  try_catch
    (r <- fs_readFile audioPath ;;
     match r with
     | FileRejects e => throw e
     | FileBytes audioData =>
         let audioPart := InlinePart (mkInline (base64 audioData) "audio/mp3") in
         let prompt := systemPrompt ++ nl ++
           "  Listen to this audio interview question." ++ nl ++
           "  Transcribe its content internally (do not show the transcription) and then respond in the first person as if I'm answering it directly in the interview." ++ nl ++
           "  Keep it short (3–6 sentences), confident, and conversational." in
         response <- model_generateContent [TextPart prompt; audioPart] ;;
         text_and_timestamp response
     end)
    (fun err => throw err).

Definition analyzeAudioFromBase64 (data mimeType : string) : M GenerationResult :=
  try_catch
    (let audioPart := InlinePart (mkInline data mimeType) in
     let prompt := systemPrompt ++ nl ++
       "  Listen to this interview question." ++ nl ++
       "  Reply directly in first person (" ++ dq ++ "I" ++ dq ++
       ") with a short, natural spoken answer as if I'm responding to the interviewer." ++ nl ++
       "  Be confident, clear, and concise (3–6 sentences)." in
     response <- model_generateContent [TextPart prompt; audioPart] ;;
     text_and_timestamp response)
    (fun err => throw err).

Definition analyzeImageFile (imagePath : string) : M GenerationResult :=
  try_catch
    (r <- fs_readFile imagePath ;;
     match r with
     | FileRejects e => throw e
     | FileBytes imageData =>
         let imagePart := InlinePart (mkInline (base64 imageData) "image/png") in
         let prompt := systemPrompt ++ nl ++
           "  Look at this image and understand what interview question or topic it represents." ++ nl ++
           "  Then answer directly in first person as if I'm explaining it to the interviewer." ++ nl ++
           "  Keep the response short, confident, and spoken in natural English (3–6 sentences)." in
         response <- model_generateContent [TextPart prompt; imagePart] ;;
         text_and_timestamp response
     end)
    (fun err => throw err).

Definition chatWithGemini (message : string) : M string :=
  try_catch
    (o <- getThis ;;
     if useOllama o then callOllama message
     else
       match model o with
       | Some _ =>
           response <- model_generateContent [TextPart message] ;;
           response_text response
       | None => throw (Error "No LLM provider configured")
       end)
    (fun error => throw error).

Definition chat (message : string) : M string := chatWithGemini message.

Definition isUsingOllama : M bool :=
  o <- getThis ;; ret (useOllama o).

Definition getCurrentProvider : M Provider :=
  o <- getThis ;; ret (if useOllama o then ollama else gemini).

Definition getCurrentModel : M string :=
  o <- getThis ;; ret (if useOllama o then ollamaModel o else gemini_flash).

Definition switchToOllama (model url : option string) : M unit :=
  setThis (set_useOllama true) ;;
  (match url with
   | Some u => if truthy url then setThis (set_ollamaUrl u) else ret tt
   | None => ret tt
   end) ;;
  match model with
  | Some m =>
      if truthy model then setThis (set_ollamaModel m)
      else initializeOllamaModel     (* the empty string is falsy *)
  | None => initializeOllamaModel
  end.

Definition switchToGemini (apiKey : option string) : M unit :=
  (match apiKey with
   | Some key =>
       if truthy apiKey then setThis (set_model (Some (getGenerativeModel key)))
       else ret tt
   | None => ret tt
   end) ;;
  o <- getThis ;;
  if match model o with None => true | Some _ => false end && negb (truthy apiKey)
  then throw (Error "No Gemini API key provided and no existing model instance")
  else setThis (set_useOllama false).

Definition testConnection : M ConnectionResult :=
  try_catch
    (o <- getThis ;;
     if useOllama o then
       available <- checkOllamaAvailable ;;
       if negb available then
         ret (mkConnection false (Some ("Ollama not available at " ++ ollamaUrl o)))
       else
         _ <- callOllama "Hello" ;;
         ret (mkConnection true None)
     else
       match model o with
       | None => ret (mkConnection false (Some "No Gemini model configured"))
       | Some _ =>
           response <- model_generateContent [TextPart "Hello"] ;;
           txt <- response_text response ;;
           if negb (txt =? "") then ret (mkConnection true None)
           else ret (mkConnection false (Some "Empty response from Gemini"))
       end)
    (fun error => ret (mkConnection false (Some (message error)))).

(** The constructor proper: it either throws or hands back the object.  In
    local mode it also starts [initializeOllamaModel] without awaiting it;
    that detached call is [constructor_task]. *)
Definition constructor (apiKey : option string) (useOllama : bool)
    (ollamaModel ollamaUrl : option string) : Outcome LLMHelper :=
  let o := set_useOllama useOllama fresh in
  if useOllama then
    let o := set_ollamaUrl (or_default ollamaUrl default_url) o in
    let o := set_ollamaModel (or_default ollamaModel "gemma:latest") o in
    Return o
  else
    match apiKey with
    | Some key =>
        if truthy apiKey then Return (set_model (Some (getGenerativeModel key)) o)
        else Throw (Error "Either provide Gemini API key or enable Ollama mode")
    | None => Throw (Error "Either provide Gemini API key or enable Ollama mode")
    end.

Definition constructor_task (useOllama : bool) : M unit :=
  if useOllama then initializeOllamaModel else ret tt.

(** The object once the detached call of its constructor has settled, when
    no other method ran in between. *)
Definition settled (w : World) (apiKey : option string) (useOllama : bool)
    (ollamaModel ollamaUrl : option string) : Outcome State :=
  match constructor apiKey useOllama ollamaModel ollamaUrl with
  | Return o => Return (snd (constructor_task useOllama w (mkState o [])))
  | Throw e => Throw e
  end.

(** ** The public interface as data *)

(** The methods that neither construct nor switch. *)
Inductive Query : Type :=
| QExtractProblemFromImages (imagePaths : list string)
| QGenerateSolution (problemInfo : string)
| QDebugSolutionWithImages (problemInfo currentCode : string) (paths : list string)
| QAnalyzeAudioFile (audioPath : string)
| QAnalyzeAudioFromBase64 (data mimeType : string)
| QAnalyzeImageFile (imagePath : string)
| QChatWithGemini (message : string)
| QChat (message : string)
| QIsUsingOllama
| QGetOllamaModels
| QGetCurrentProvider
| QGetCurrentModel
| QTestConnection.

Inductive Operation : Type :=
| OQuery (q : Query)
| OSwitchToOllama (model url : option string)
| OSwitchToGemini (apiKey : option string).

Inductive Value : Type :=
| VUndefined
| VString (s : string)
| VBool (b : bool)
| VNames (l : list string)
| VProvider (p : Provider)
| VResult (r : GenerationResult)
| VConnection (c : ConnectionResult).

Definition fmap {A B} (f : A -> B) (m : M A) : M B := x <- m ;; ret (f x).

Definition query (q : Query) : M Value :=
  match q with
  | QExtractProblemFromImages ps => fmap VResult (extractProblemFromImages ps)
  | QGenerateSolution info => fmap VResult (generateSolution info)
  | QDebugSolutionWithImages info code ps =>
      fmap VResult (debugSolutionWithImages info code ps)
  | QAnalyzeAudioFile p => fmap VResult (analyzeAudioFile p)
  | QAnalyzeAudioFromBase64 d mt => fmap VResult (analyzeAudioFromBase64 d mt)
  | QAnalyzeImageFile p => fmap VResult (analyzeImageFile p)
  | QChatWithGemini msg => fmap VString (chatWithGemini msg)
  | QChat msg => fmap VString (chat msg)
  | QIsUsingOllama => fmap VBool isUsingOllama
  | QGetOllamaModels => fmap VNames getOllamaModels
  | QGetCurrentProvider => fmap VProvider getCurrentProvider
  | QGetCurrentModel => fmap VString getCurrentModel
  | QTestConnection => fmap VConnection testConnection
  end.

Definition perform (op : Operation) : M Value :=
  match op with
  | OQuery q => query q
  | OSwitchToOllama m u => fmap (fun _ => VUndefined) (switchToOllama m u)
  | OSwitchToGemini k => fmap (fun _ => VUndefined) (switchToGemini k)
  end.

(** The generation calls, by the kind of prompt they take. *)
Inductive Generation : Type :=
| GText (problemInfo : string)
| GImages (imagePaths : list string)
| GImagesDebug (problemInfo currentCode : string) (paths : list string)
| GImage (imagePath : string)
| GAudio (audioPath : string)
| GAudioBase64 (data mimeType : string).

Definition generate (g : Generation) : M GenerationResult :=
  match g with
  | GText info => generateSolution info
  | GImages ps => extractProblemFromImages ps
  | GImagesDebug info code ps => debugSolutionWithImages info code ps
  | GImage p => analyzeImageFile p
  | GAudio p => analyzeAudioFile p
  | GAudioBase64 d mt => analyzeAudioFromBase64 d mt
  end.

Definition multimodal (g : Generation) : bool :=
  match g with
  | GText _ => false
  | _ => true
  end.

(** ** Vocabulary of the statements *)

Definition tags_url (o : LLMHelper) : string := ollamaUrl o ++ "/api/tags".
Definition generate_url (o : LLMHelper) : string := ollamaUrl o ++ "/api/generate".

(** The names a reply of [/api/tags] carries when it is usable. *)
Definition names_of (r : FetchReply TagsJson) : list string :=
  match r with
  | Response status _ (Json d) =>
      if ok status then match models d with Some l => l | None => [] end else []
  | _ => []
  end.

(** The server is unreachable or answers with an error status. *)
Definition unreachable_or_error {A} (r : FetchReply A) : bool :=
  match r with
  | FetchRejects _ => true
  | Response status _ _ => negb (ok status)
  end.

(** The reply of [/api/generate] carries a completion. *)
Definition answers (r : FetchReply OllamaResponse) : bool :=
  match r with
  | Response status _ (Json _) => ok status
  | _ => false
  end.

(** The body [callOllama] posts for [prompt] when [m] is the active model. *)
Definition request_for (m prompt : string) : GenerateBody :=
  mkBody m prompt false "0.7" "0.9".

(** The state after the first two statements of [switchToOllama]. *)
Definition entering (url : option string) (s : State) : State :=
  mkState (set_ollamaUrl (or_default url (ollamaUrl (this s)))
             (set_useOllama true (this s)))
          (history s).

(** The model [initializeOllamaModel] keeps or picks from a non-empty list. *)
Definition kept_or_first (names : list string) (current : string) : string :=
  match names with
  | [] => current
  | first :: _ => if includes names current then current else first
  end.

Definition generation_requests (evs : list Event) : nat :=
  length (filter (fun ev => match ev with
                            | EvFetchGenerate _ _ | EvGenerateContent _ _ => true
                            | _ => false
                            end) evs).

Definition listing_requests (evs : list Event) : nat :=
  length (filter (fun ev => match ev with
                            | EvFetchTags _ => true
                            | _ => false
                            end) evs).

(** The wall clock never runs backwards as interactions go by. *)
Definition clock_monotone (w : World) : Prop :=
  forall h ev, (dateNow w h <= dateNow w (ev :: h))%Z.

(** [h'] is [h] with later interactions added. *)
Definition later (h h' : History) : Prop := exists evs, h' = (evs ++ h)%list.

(** A computation that leaves every field of the object as it was. *)
Definition keeps_fields {A} (m : M A) : Prop :=
  forall w s, this (snd (m w s)) = this s.

(** [h'] is [h] with at most [g] generation requests and [l] listing
    requests added; a computation [issues g l] when it stays within that. *)
Definition budget (g l : nat) (h h' : History) : Prop :=
  exists evs, h' = (evs ++ h)%list
              /\ generation_requests evs <= g /\ listing_requests evs <= l.

Definition issues {A} (g l : nat) (m : M A) : Prop :=
  forall w s, budget g l (history s) (history (snd (m w s))).

(** What [this.model.generateContent] throws on a [null] handle. *)
Definition null_handle : JsError :=
  TypeError "Cannot read properties of null (reading 'generateContent')".

(** The common tail of the six generation methods. *)
Definition send (request : list Part) : M GenerationResult :=
  response <- model_generateContent request ;;
  text_and_timestamp response.

(** Two states that differ at most in the fields of the local backend. *)
Definition same_cloud (s1 s2 : State) : Prop :=
  model (this s1) = model (this s2) /\ history s1 = history s2.

(** A computation that looks at nothing but the cloud handle and the
    history. *)
Definition mode_blind {A} (m : M A) : Prop :=
  forall w s1 s2,
    same_cloud s1 s2 ->
    fst (m w s1) = fst (m w s2) /\ same_cloud (snd (m w s1)) (snd (m w s2)).

(** ** [cleanJsonResponse]

    The one method that looks inside a string.  A JavaScript string is a
    sequence of UTF-16 code units, and [trim] removes code units that the
    byte strings above cannot tell apart, so this method is embedded over
    code units. *)

Definition CodeUnits : Type := list N.

(** The code units [String.prototype.trim] removes: WhiteSpace and
    LineTerminator of ECMAScript. *)
Definition isWhiteSpace (c : N) : bool :=
  existsb (N.eqb c)
    [9; 10; 11; 12; 13; 32; 160; 5760;
     8192; 8193; 8194; 8195; 8196; 8197; 8198; 8199; 8200; 8201; 8202;
     8232; 8233; 8239; 8287; 12288; 65279]%N.

Fixpoint dropWhile {A} (f : A -> bool) (l : list A) : list A :=
  match l with
  | [] => []
  | x :: rest => if f x then dropWhile f rest else l
  end.

(** [text.trim()]. *)
Definition trim (text : CodeUnits) : CodeUnits :=
  rev (dropWhile isWhiteSpace (rev (dropWhile isWhiteSpace text))).

(** [Some rest] when [text] is [prefix] followed by [rest]. *)
Fixpoint after_prefix (prefix text : CodeUnits) : option CodeUnits :=
  match prefix, text with
  | [], _ => Some text
  | p :: prefix', c :: text' =>
      if N.eqb p c then after_prefix prefix' text' else None
  | _ :: _, [] => None
  end.

Definition backtick : N := 96.
Definition line_feed : N := 10.

(** The code units of [json]. *)
Definition json_word : CodeUnits := [106; 115; 111; 110]%N.

Definition fence : CodeUnits := [backtick; backtick; backtick].

(** [text.replace(/^```(?:json)?\n/, '')]: the pattern is anchored at the
    start of the input; the optional group is tried first. *)
Definition replace_opening_fence (text : CodeUnits) : CodeUnits :=
  match after_prefix (fence ++ json_word ++ [line_feed])%list text with
  | Some rest => rest
  | None =>
      match after_prefix (fence ++ [line_feed])%list text with
      | Some rest => rest
      | None => text
      end
  end.

(** [text.replace(/\n```$/, '')]: without the [m] flag the pattern matches at
    the end of the input only. *)
Definition replace_closing_fence (text : CodeUnits) : CodeUnits :=
  match after_prefix (rev (line_feed :: fence)) (rev text) with
  | Some rest => rev rest
  | None => text
  end.

Definition cleanJsonResponse (text : CodeUnits) : CodeUnits :=
  let text := replace_closing_fence (replace_opening_fence text) in
  let text := trim text in
  text.

(** The first or the last code unit is one that [trim] removes. *)
Definition outer_space (text : CodeUnits) : bool :=
  match text with
  | [] => false
  | c :: _ => isWhiteSpace c
  end
  || match rev text with
     | [] => false
     | c :: _ => isWhiteSpace c
     end.

(** ** Worlds and states to run the code on *)

Definition fetch_failed : JsError := TypeError "fetch failed".

(** Nothing answers. *)
Definition offline : World :=
  mkWorld (fun _ _ => FetchRejects fetch_failed)
          (fun _ _ _ => FetchRejects fetch_failed)
          (fun _ _ _ => CloudRejects fetch_failed)
          (fun _ _ => FileRejects (Error "ENOENT: no such file or directory"))
          (fun h => Z.of_nat (length h)).

(** An Ollama server with [names] installed that completes every prompt, a
    cloud that answers [reply], readable files and a ticking clock. *)
Definition serving (names : list string) (reply : string) : World :=
  mkWorld (fun _ _ => Response 200 "OK" (Json (mkTags (Some names))))
          (fun _ _ _ => Response 200 "OK" (Json (mkOllamaResponse "Hi" true)))
          (fun _ _ _ => CloudResponse (Text reply))
          (fun _ _ => FileBytes ["M"; "a"; "n"]%char)
          (fun h => Z.of_nat (length h)).

(** The server lists [names] but fails every completion with status 500. *)
Definition listing_only (names : list string) : World :=
  mkWorld (fun _ _ => Response 200 "OK" (Json (mkTags (Some names))))
          (fun _ _ _ => Response 500 "Internal Server Error"
                          (Json (mkOllamaResponse "" true)))
          (fun _ _ _ => CloudRejects fetch_failed)
          (fun _ _ => FileRejects (Error "ENOENT: no such file or directory"))
          (fun h => Z.of_nat (length h)).

(** The server lists [names] once, then goes away. *)
Definition vanishing (names : list string) : World :=
  mkWorld (fun h _ => match h with
                      | [] => Response 200 "OK" (Json (mkTags (Some names)))
                      | _ => FetchRejects fetch_failed
                      end)
          (fun _ _ _ => FetchRejects fetch_failed)
          (fun _ _ _ => CloudRejects fetch_failed)
          (fun _ _ => FileRejects (Error "ENOENT: no such file or directory"))
          (fun h => Z.of_nat (length h)).

Definition start (o : LLMHelper) : State := mkState o [].

(** [new LLMHelper("key")]. *)
Definition cloud_helper : LLMHelper :=
  mkHelper (Some (getGenerativeModel "key")) false "llama3.2" default_url.

(** [new LLMHelper(undefined, true, "nonexistent-model")]. *)
Definition misconfigured_helper : LLMHelper :=
  mkHelper None true "nonexistent-model" default_url.

(** ** States the public interface can produce *)

(** Some backend can be asked, the endpoint is not empty, and a cloud handle
    is one for the fixed cloud model. *)
Definition usable (o : LLMHelper) : Prop :=
  (useOllama o = true \/ model o <> None)
  /\ ollamaUrl o <> ""
  /\ (forall g, model o = Some g -> modelId g = gemini_flash).

(** The states of a gateway during its life in a world: the constructor
    returned it, and from then on public methods ran, or the detached
    [initializeOllamaModel] of the constructor ran, one after the other. *)
Inductive reachable (w : World) : State -> Prop :=
| reach_constructor (apiKey : option string) (useOllama : bool)
    (ollamaModel ollamaUrl : option string) (o : LLMHelper) :
    constructor apiKey useOllama ollamaModel ollamaUrl = Return o ->
    reachable w (start o)
| reach_detached (s : State) :
    reachable w s -> reachable w (snd (initializeOllamaModel w s))
| reach_perform (s : State) (op : Operation) :
    reachable w s -> reachable w (snd (perform op w s)).

(** The message of the error [callOllama] throws for a given cause. *)
Definition connection_failure (cause url : string) : JsError :=
  Error ("Failed to connect to Ollama: " ++ cause
           ++ ". Make sure Ollama is running on " ++ url).

(** The request events of a list of paths read in order, newest first. *)
Definition reads_of (paths : list string) : list Event :=
  rev (map EvReadFile paths).

(** An inline part built from a file: base64 data under a fixed mime type. *)
Definition inline_file (mime : string) (p : Part) : Prop :=
  exists bytes, p = InlinePart (mkInline (base64 bytes) mime).

(** Whether [testConnection] reports success. *)
Definition connected (w : World) (s : State) : bool :=
  match fst (testConnection w s) with
  | Return r => success r
  | Throw _ => false
  end.

(** The files a generation call reads, in order. *)
Definition files_of (g : Generation) : list string :=
  match g with
  | GImages ps | GImagesDebug _ _ ps => ps
  | GImage p | GAudio p => [p]
  | GText _ | GAudioBase64 _ _ => []
  end.

(** The form of the request a generation call sends: the persona preamble
    and the instructions of the method as one text, then the attachments of
    its kind. *)
Definition shaped (g : Generation) (request : list Part) : Prop :=
  exists instructions attachments,
    request = TextPart (systemPrompt ++ nl ++ instructions) :: attachments
    /\ match g with
       | GText _ => attachments = []
       | GImages ps | GImagesDebug _ _ ps =>
           length attachments = length ps
           /\ Forall (inline_file "image/png") attachments
       | GImage _ => exists a, attachments = [a] /\ inline_file "image/png" a
       | GAudio _ => exists a, attachments = [a] /\ inline_file "audio/mp3" a
       | GAudioBase64 d mt => attachments = [InlinePart (mkInline d mt)]
       end.

(** Every file of the list was read at some moment. *)
Definition all_read (w : World) (paths : list string) : Prop :=
  Forall (fun p => exists h bytes, readFile w h p = FileBytes bytes) paths.

(** What a generation call has done when it ends, as a statement about the
    interactions [tail] that follow the reading of its files. *)
Definition ends_with (w : World) (g : Generation) (s : State)
    (o : Outcome GenerationResult) (tail : list Event) : Prop :=
  let read := (reads_of (files_of g) ++ history s)%list in
  match o with
  | Return r =>
      exists m req,
        tail = [EvDateNow; EvGenerateContent m req]
        /\ shaped g req
        /\ all_read w (files_of g)
        /\ generateContent w read m req = CloudResponse (Text (text r))
  | Throw e =>
      (tail = []
       /\ ((model (this s) = None /\ e = null_handle)
           \/ exists h p, In p (files_of g) /\ readFile w h p = FileRejects e))
      \/ (exists m req,
            tail = [EvGenerateContent m req]
            /\ shaped g req
            /\ all_read w (files_of g)
            /\ (generateContent w read m req = CloudRejects e
                \/ generateContent w read m req = CloudResponse (TextThrows e)))
  end.

(** The requests of a list of interactions that go to the local server. *)
Definition local_requests (evs : list Event) : nat :=
  length (filter (fun ev => match ev with
                            | EvFetchTags _ | EvFetchGenerate _ _ => true
                            | _ => false
                            end) evs).

(** ** Running the code on concrete inputs *)

Example base64_Man : base64 ["M"; "a"; "n"]%char = "TWFu".
Proof. reflexivity. Qed.

Example base64_Ma : base64 ["M"; "a"]%char = "TWE=".
Proof. reflexivity. Qed.

Example base64_M : base64 ["M"]%char = "TQ==".
Proof. reflexivity. Qed.

Example constructor_cloud :
  constructor (Some "key") false None None = Return cloud_helper.
Proof. reflexivity. Qed.

Example constructor_local :
  constructor None true (Some "nonexistent-model") None = Return misconfigured_helper.
Proof. reflexivity. Qed.

Example constructor_local_defaults :
  constructor None true None None
  = Return (mkHelper None true "gemma:latest" default_url).
Proof. reflexivity. Qed.

Example getOllamaModels_serving :
  fst (getOllamaModels (serving ["llama3.2"; "mistral"] "") (start misconfigured_helper))
  = Return ["llama3.2"; "mistral"].
Proof. reflexivity. Qed.

Example chat_offline_message :
  fst (chat "Hi" offline (start misconfigured_helper))
  = Throw (Error "Failed to connect to Ollama: fetch failed. Make sure Ollama is running on http://localhost:11434").
Proof. reflexivity. Qed.

Example chat_status_500 :
  fst (chat "Hi" (listing_only []) (start misconfigured_helper))
  = Throw (Error "Failed to connect to Ollama: Ollama API error: 500 Internal Server Error. Make sure Ollama is running on http://localhost:11434").
Proof. reflexivity. Qed.

Example testConnection_offline :
  fst (testConnection offline (start misconfigured_helper))
  = Return (mkConnection false (Some "Ollama not available at http://localhost:11434")).
Proof. reflexivity. Qed.

Example generateSolution_timestamp :
  fst (generateSolution "{}" (serving [] "I test REST APIs daily.") (start cloud_helper))
  = Return (mkResult "I test REST APIs daily." 1).
Proof. reflexivity. Qed.

(** ** What the building blocks do *)

Lemma set_ollamaModel_same (o : LLMHelper) : set_ollamaModel (ollamaModel o) o = o.
Proof. destruct o; reflexivity. Qed.

Lemma state_eta (s : State) : mkState (this s) (history s) = s.
Proof. destruct s; reflexivity. Qed.

(** In cloud mode the listing returns at once. *)
Lemma getOllamaModels_cloud (w : World) (s : State) :
  useOllama (this s) = false -> getOllamaModels w s = (Return [], s).
Proof.
  intros Hmode. unfold getOllamaModels, bind, getThis. rewrite Hmode. reflexivity.
Qed.

(** In local mode the listing is one request, and never throws. *)
Lemma getOllamaModels_local (w : World) (s : State) :
  useOllama (this s) = true ->
  getOllamaModels w s
  = (Return (names_of (fetchTags w (history s) (tags_url (this s)))),
     mkState (this s) (EvFetchTags (tags_url (this s)) :: history s)).
Proof.
  intros Hmode.
  unfold getOllamaModels, bind, getThis, try_catch, await_fetch, fetch_tags,
    interact, bind, tags_url, names_of.
  rewrite Hmode. simpl.
  destruct (fetchTags w (history s) (ollamaUrl (this s) ++ "/api/tags"))
    as [e | status statusText body]; simpl; [reflexivity |].
  destruct (ok status), body; reflexivity.
Qed.

(** [callOllama] is one request whatever comes back; it returns exactly when
    the reply carries a completion. *)
Lemma callOllama_state (w : World) (s : State) (prompt : string) :
  snd (callOllama prompt w s)
  = mkState (this s)
      (EvFetchGenerate (generate_url (this s))
         (request_for (ollamaModel (this s)) prompt) :: history s).
Proof.
  unfold callOllama, try_catch, bind, getThis, await_fetch, fetch_generate,
    interact, bind, generate_url, request_for. simpl.
  destruct (fetchGenerate w (history s) _ _) as [e | status statusText body];
    simpl; [reflexivity |].
  destruct (ok status), body; reflexivity.
Qed.

Lemma callOllama_returned (w : World) (s : State) (prompt : string) :
  returned (fst (callOllama prompt w s))
  = answers (fetchGenerate w (history s) (generate_url (this s))
               (request_for (ollamaModel (this s)) prompt)).
Proof.
  unfold callOllama, try_catch, bind, getThis, await_fetch, fetch_generate,
    interact, bind, generate_url, request_for, answers. simpl.
  destruct (fetchGenerate w (history s) _ _) as [e | status statusText body];
    simpl; [reflexivity |].
  destruct (ok status), body; reflexivity.
Qed.

(** A failure of [callOllama] is a fresh [Error] that quotes the cause and
    the endpoint. *)
Lemma callOllama_throws (w : World) (s : State) (prompt : string) (e : JsError) :
  fst (callOllama prompt w s) = Throw e ->
  exists cause,
    e = Error ("Failed to connect to Ollama: " ++ cause
                 ++ ". Make sure Ollama is running on " ++ ollamaUrl (this s)).
Proof.
  unfold callOllama, try_catch, bind, getThis, await_fetch, fetch_generate,
    interact, bind. simpl.
  destruct (fetchGenerate w (history s) _ _) as [e0 | status statusText body];
    simpl.
  - intros [= <-]. exists (message e0). reflexivity.
  - destruct (ok status); simpl.
    + destruct body as [d | e1]; simpl; [discriminate |].
      intros [= <-]. exists (message e1). reflexivity.
    + intros [= <-].
      exists ("Ollama API error: " ++ show_nat status ++ " " ++ statusText).
      reflexivity.
Qed.

Lemma checkOllamaAvailable_run (w : World) (s : State) :
  checkOllamaAvailable w s
  = (Return (negb (unreachable_or_error (fetchTags w (history s) (tags_url (this s))))),
     mkState (this s) (EvFetchTags (tags_url (this s)) :: history s)).
Proof.
  unfold checkOllamaAvailable, try_catch, bind, getThis, await_fetch, fetch_tags,
    interact, bind, tags_url, unreachable_or_error. simpl.
  destruct (fetchTags w (history s) _) as [e | status statusText body]; simpl;
    [reflexivity |].
  rewrite Bool.negb_involutive. reflexivity.
Qed.

(** ** [initializeOllamaModel], case by case *)

Section Initialize.

Variable w : World.
Variable s : State.
Hypothesis local_mode : useOllama (this s) = true.

(** The names of the first listing, and the state once it has come back. *)
Let names := names_of (fetchTags w (history s) (tags_url (this s))).
Let listed := EvFetchTags (tags_url (this s)) :: history s.

(** The model after the first substitution, and the request that probes it. *)
Let chosen := kept_or_first names (ollamaModel (this s)).
Let probe := request_for chosen "Hello".
Let probed := EvFetchGenerate (generate_url (this s)) probe :: listed.

Lemma initialize_no_models :
  names = [] ->
  initializeOllamaModel w s = (Return tt, mkState (this s) listed).
Proof.
  intros Hnames. unfold initializeOllamaModel, try_catch, bind.
  rewrite (getOllamaModels_local w s local_mode). fold names. rewrite Hnames.
  reflexivity.
Qed.

(** The [try] block when the listing is not empty: the model is kept or
    replaced, then probed. *)
Lemma initialize_try_block (first : string) (rest : list string) :
  names = first :: rest ->
  (availableModels <- getOllamaModels ;;
   match availableModels with
   | [] => ret tt
   | first :: _ =>
       o <- getThis ;;
       (if negb (includes availableModels (ollamaModel o))
        then setThis (set_ollamaModel first)
        else ret tt) ;;
       _ <- callOllama "Hello" ;;
       ret tt
   end) w s
  = (match fst (callOllama "Hello" w
                  (mkState (set_ollamaModel chosen (this s)) listed)) with
     | Return _ => Return tt
     | Throw e => Throw e
     end,
     mkState (set_ollamaModel chosen (this s)) probed).
Proof.
  intros Hnames.
  unfold bind at 1. rewrite (getOllamaModels_local w s local_mode).
  fold names. rewrite Hnames.
  unfold bind at 1. unfold getThis at 1. cbn [this].
  assert (Hsel :
    (if negb (includes (first :: rest) (ollamaModel (this s)))
     then setThis (set_ollamaModel first)
     else ret tt) w (mkState (this s) listed)
    = (Return tt, mkState (set_ollamaModel chosen (this s)) listed)).
  { unfold chosen, kept_or_first. rewrite Hnames.
    destruct (includes (first :: rest) (ollamaModel (this s))); cbn [negb].
    - rewrite set_ollamaModel_same. reflexivity.
    - reflexivity. }
  unfold bind at 1. fold listed. rewrite Hsel.
  unfold bind.
  pose proof (callOllama_state w
                (mkState (set_ollamaModel chosen (this s)) listed) "Hello") as Hst.
  destruct (callOllama "Hello" w (mkState (set_ollamaModel chosen (this s)) listed))
    as [[r | e] s']; cbn [fst snd] in *; subst s'; reflexivity.
Qed.

Lemma initialize_probe_answers (first : string) (rest : list string) :
  names = first :: rest ->
  answers (fetchGenerate w listed (generate_url (this s)) probe) = true ->
  initializeOllamaModel w s
  = (Return tt, mkState (set_ollamaModel chosen (this s)) probed).
Proof.
  intros Hnames Hprobe.
  unfold initializeOllamaModel, try_catch.
  rewrite (initialize_try_block first rest Hnames).
  pose proof (callOllama_returned w
                (mkState (set_ollamaModel chosen (this s)) listed) "Hello") as Hret.
  cbn [this history] in Hret. change (generate_url _) with (generate_url (this s)) in Hret.
  change (ollamaModel (set_ollamaModel chosen (this s))) with chosen in Hret.
  fold probe in Hret. rewrite Hprobe in Hret.
  destruct (fst (callOllama "Hello" w _)); [reflexivity | discriminate].
Qed.

(** The names of the listing fetched again after a failed probe. *)
Let names_again := names_of (fetchTags w probed (tags_url (this s))).

Lemma initialize_probe_fails (first : string) (rest : list string) :
  names = first :: rest ->
  answers (fetchGenerate w listed (generate_url (this s)) probe) = false ->
  initializeOllamaModel w s
  = (Return tt,
     mkState (set_ollamaModel (hd chosen names_again) (this s))
       (EvFetchTags (tags_url (this s)) :: probed)).
Proof.
  intros Hnames Hprobe.
  unfold initializeOllamaModel, try_catch.
  rewrite (initialize_try_block first rest Hnames).
  pose proof (callOllama_returned w
                (mkState (set_ollamaModel chosen (this s)) listed) "Hello") as Hret.
  cbn [this history] in Hret. change (generate_url _) with (generate_url (this s)) in Hret.
  change (ollamaModel (set_ollamaModel chosen (this s))) with chosen in Hret.
  fold probe in Hret. rewrite Hprobe in Hret.
  destruct (fst (callOllama "Hello" w _)); [discriminate |].
  unfold bind at 1. rewrite getOllamaModels_local by exact local_mode.
  cbn [this history].
  change (tags_url (set_ollamaModel chosen (this s))) with (tags_url (this s)).
  fold names_again.
  destruct names_again as [| again others]; cbn [hd].
  - reflexivity.
  - unfold setThis. cbn [this history]. destruct (this s); reflexivity.
Qed.

End Initialize.

(** In cloud mode [initializeOllamaModel] does nothing at all. *)
Lemma initialize_cloud (w : World) (s : State) :
  useOllama (this s) = false -> initializeOllamaModel w s = (Return tt, s).
Proof.
  intros Hmode. unfold initializeOllamaModel, try_catch, bind.
  rewrite (getOllamaModels_cloud w s Hmode). reflexivity.
Qed.

(** ** The two switches *)

Lemma switchToOllama_named (w : World) (s : State) (m : string) (url : option string) :
  truthy (Some m) = true ->
  switchToOllama (Some m) url w s
  = (Return tt, mkState (set_ollamaModel m (this (entering url s))) (history s)).
Proof.
  intros Hm. unfold switchToOllama. rewrite Hm.
  unfold bind, setThis, entering, or_default, truthy.
  destruct url as [u |]; cbn [this history].
  - destruct (u =? ""); cbn [negb]; destruct (this s); reflexivity.
  - destruct (this s); reflexivity.
Qed.

Lemma switchToOllama_unnamed (w : World) (s : State) (model url : option string) :
  truthy model = false ->
  switchToOllama model url w s = initializeOllamaModel w (entering url s).
Proof.
  intros Hm. unfold switchToOllama.
  assert (Hbody :
    match model with
    | Some m => if truthy model then setThis (set_ollamaModel m)
                else initializeOllamaModel
    | None => initializeOllamaModel
    end = initializeOllamaModel).
  { destruct model; [rewrite Hm |]; reflexivity. }
  rewrite Hbody. clear Hbody.
  unfold bind at 1. unfold setThis at 1. cbn [this history].
  unfold bind at 1.
  unfold entering, or_default, truthy, setThis.
  destruct url as [u |]; cbn [this history].
  - destruct (u =? ""); cbn [negb]; destruct (this s); reflexivity.
  - destruct (this s); reflexivity.
Qed.

(** ** Frame: what a computation leaves alone *)

Lemma keeps_ret {A} (a : A) : keeps_fields (ret a).
Proof. intros w s; reflexivity. Qed.

Lemma keeps_throw {A} (e : JsError) : keeps_fields (@throw A e).
Proof. intros w s; reflexivity. Qed.

Lemma keeps_getThis : keeps_fields getThis.
Proof. intros w s; reflexivity. Qed.

Lemma keeps_interact {A} (ev : Event) (f : World -> History -> A) :
  keeps_fields (interact ev f).
Proof. intros w s; reflexivity. Qed.

Lemma keeps_bind {A B} (m : M A) (k : A -> M B) :
  keeps_fields m -> (forall a, keeps_fields (k a)) -> keeps_fields (bind m k).
Proof.
  intros Hm Hk w s. unfold bind. specialize (Hm w s).
  destruct (m w s) as [[a | e] s']; cbn [snd] in *.
  - rewrite Hk. exact Hm.
  - exact Hm.
Qed.

Lemma keeps_try {A} (m : M A) (h : JsError -> M A) :
  keeps_fields m -> (forall e, keeps_fields (h e)) -> keeps_fields (try_catch m h).
Proof.
  intros Hm Hh w s. unfold try_catch. specialize (Hm w s).
  destruct (m w s) as [[a | e] s']; cbn [snd] in *.
  - exact Hm.
  - rewrite Hh. exact Hm.
Qed.

Lemma keeps_Promise_all {A} (ps : list (M A)) :
  Forall keeps_fields ps -> keeps_fields (Promise_all ps).
Proof.
  induction 1 as [| p rest Hp _ IH]; intros w s; cbn [Promise_all].
  - reflexivity.
  - specialize (Hp w s). destruct (p w s) as [o s1]. cbn [snd] in Hp.
    specialize (IH w s1). destruct (Promise_all rest w s1) as [os s2].
    cbn [snd] in *. congruence.
Qed.

(** Goals about a method are taken apart along its syntax. *)
Ltac frame_step :=
  first
    [ apply keeps_ret | apply keeps_throw | apply keeps_getThis
    | apply keeps_interact
    | apply keeps_bind | apply keeps_try
    | match goal with
      | |- forall _, _ => intro
      | |- keeps_fields (match ?x with _ => _ end) => destruct x
      | |- keeps_fields (let (_, _) := ?x in _) => destruct x
      end ].

Ltac frame := repeat frame_step.

Lemma keeps_fileToGenerativePart (p : string) : keeps_fields (fileToGenerativePart p).
Proof. unfold fileToGenerativePart, fs_readFile. frame. Qed.

Lemma keeps_reads (ps : list string) :
  keeps_fields (Promise_all (map fileToGenerativePart ps)).
Proof.
  apply keeps_Promise_all, Forall_forall. intros m Hin.
  apply in_map_iff in Hin as [p [<- _]]. apply keeps_fileToGenerativePart.
Qed.

Lemma keeps_model_generateContent (req : list Part) :
  keeps_fields (model_generateContent req).
Proof. unfold model_generateContent. frame. Qed.

Lemma keeps_text_and_timestamp (t : TextReply) : keeps_fields (text_and_timestamp t).
Proof. unfold text_and_timestamp, response_text, Date_now. frame. Qed.

Lemma keeps_callOllama (prompt : string) : keeps_fields (callOllama prompt).
Proof. intros w s. rewrite callOllama_state. reflexivity. Qed.

Lemma keeps_getOllamaModels : keeps_fields getOllamaModels.
Proof.
  unfold getOllamaModels, await_fetch, await_json, fetch_tags. frame.
Qed.

Lemma keeps_checkOllamaAvailable : keeps_fields checkOllamaAvailable.
Proof. intros w s. rewrite checkOllamaAvailable_run. reflexivity. Qed.

Lemma keeps_generate (g : Generation) : keeps_fields (generate g).
Proof.
  destruct g; cbn [generate];
    unfold generateSolution, extractProblemFromImages, debugSolutionWithImages,
      analyzeImageFile, analyzeAudioFile, analyzeAudioFromBase64, fs_readFile;
    repeat first
      [ apply keeps_reads | apply keeps_model_generateContent
      | apply keeps_text_and_timestamp | frame_step ].
Qed.

Lemma keeps_chatWithGemini (msg : string) : keeps_fields (chatWithGemini msg).
Proof.
  unfold chatWithGemini, response_text.
  repeat first
    [ apply keeps_callOllama | apply keeps_model_generateContent | frame_step ].
Qed.

Lemma keeps_testConnection : keeps_fields testConnection.
Proof.
  unfold testConnection, response_text.
  repeat first
    [ apply keeps_callOllama | apply keeps_checkOllamaAvailable
    | apply keeps_model_generateContent | frame_step ].
Qed.

Lemma keeps_query (q : Query) : keeps_fields (query q).
Proof.
  destruct q; cbn [query]; unfold fmap, chat;
    (apply keeps_bind; [| intro; apply keeps_ret]).
  - apply (keeps_generate (GImages imagePaths)).
  - apply (keeps_generate (GText problemInfo)).
  - apply (keeps_generate (GImagesDebug problemInfo currentCode paths)).
  - apply (keeps_generate (GAudio audioPath)).
  - apply (keeps_generate (GAudioBase64 data0 mimeType0)).
  - apply (keeps_generate (GImage imagePath)).
  - apply keeps_chatWithGemini.
  - apply keeps_chatWithGemini.
  - unfold isUsingOllama. frame.
  - apply keeps_getOllamaModels.
  - unfold getCurrentProvider. frame.
  - unfold getCurrentModel. frame.
  - apply keeps_testConnection.
Qed.

(** ** Budget: how many requests a computation may issue *)

Lemma budget_refl (g l : nat) (h : History) : budget g l h h.
Proof. exists []. cbn. repeat split; lia. Qed.

Lemma budget_trans (g1 l1 g2 l2 : nat) (h1 h2 h3 : History) :
  budget g1 l1 h1 h2 -> budget g2 l2 h2 h3 -> budget (g1 + g2) (l1 + l2) h1 h3.
Proof.
  intros (evs1 & -> & Hg1 & Hl1) (evs2 & -> & Hg2 & Hl2).
  exists (evs2 ++ evs1)%list. unfold generation_requests, listing_requests in *.
  rewrite !filter_app, !length_app, app_assoc. repeat split; lia.
Qed.

Lemma budget_weaken (g l g' l' : nat) (h h' : History) :
  budget g l h h' -> g <= g' -> l <= l' -> budget g' l' h h'.
Proof. intros (evs & -> & Hg & Hl) ? ?. exists evs. repeat split; lia. Qed.

Lemma issues_weaken {A} (g l g' l' : nat) (m : M A) :
  issues g l m -> g <= g' -> l <= l' -> issues g' l' m.
Proof. intros Hm ? ? w s. eapply budget_weaken; eauto. Qed.

Lemma issues_ret {A} (g l : nat) (a : A) : issues g l (ret a).
Proof. intros w s. apply budget_refl. Qed.

Lemma issues_throw {A} (g l : nat) (e : JsError) : issues g l (@throw A e).
Proof. intros w s. apply budget_refl. Qed.

Lemma issues_getThis (g l : nat) : issues g l getThis.
Proof. intros w s. apply budget_refl. Qed.

Lemma issues_setThis (g l : nat) (f : LLMHelper -> LLMHelper) : issues g l (setThis f).
Proof. intros w s. apply budget_refl. Qed.

Lemma issues_interact {A} (g l : nat) (ev : Event) (f : World -> History -> A) :
  generation_requests [ev] <= g -> listing_requests [ev] <= l ->
  issues g l (interact ev f).
Proof. intros Hg Hl w s. exists [ev]. repeat split; assumption. Qed.

Lemma issues_bind {A B} (g1 l1 g l : nat) (m : M A) (k : A -> M B) :
  issues g1 l1 m -> (forall a, issues (g - g1) (l - l1) (k a)) ->
  g1 <= g -> l1 <= l -> issues g l (bind m k).
Proof.
  intros Hm Hk Hg Hl w s. unfold bind. specialize (Hm w s).
  destruct (m w s) as [[a | e] s']; cbn [snd] in *.
  - eapply budget_weaken; [eapply budget_trans; [exact Hm | apply Hk] | lia | lia].
  - eapply budget_weaken; [exact Hm | lia | lia].
Qed.

Lemma issues_try {A} (g1 l1 g l : nat) (m : M A) (h : JsError -> M A) :
  issues g1 l1 m -> (forall e, issues (g - g1) (l - l1) (h e)) ->
  g1 <= g -> l1 <= l -> issues g l (try_catch m h).
Proof.
  intros Hm Hh Hg Hl w s. unfold try_catch. specialize (Hm w s).
  destruct (m w s) as [[a | e] s']; cbn [snd] in *.
  - eapply budget_weaken; [exact Hm | lia | lia].
  - eapply budget_weaken; [eapply budget_trans; [exact Hm | apply Hh] | lia | lia].
Qed.

Lemma issues_Promise_all {A} (ps : list (M A)) :
  Forall (issues 0 0) ps -> issues 0 0 (Promise_all ps).
Proof.
  induction 1 as [| p rest Hp _ IH]; intros w s; cbn [Promise_all].
  - apply budget_refl.
  - specialize (Hp w s). destruct (p w s) as [o s1]. cbn [snd] in Hp.
    specialize (IH w s1). destruct (Promise_all rest w s1) as [os s2].
    cbn [snd] in *. exact (budget_trans 0 0 0 0 _ _ _ Hp IH).
Qed.

(** The leaves of a method, at any budget that covers them. *)
Ltac issues_leaf :=
  first
    [ apply issues_ret | apply issues_throw | apply issues_getThis
    | apply issues_setThis
    | apply issues_interact; cbn; lia ].

(** Sequencing and [try], with the share [g1], [l1] of the first part given. *)
Ltac issues_seq g1 l1 :=
  first [ apply (issues_bind g1 l1) | apply (issues_try g1 l1) ];
  [ | intro; cbn [Nat.sub] | lia | lia ].

Ltac issues_cases :=
  repeat match goal with
    | |- issues _ _ (match ?x with _ => _ end) => destruct x
    | |- issues _ _ (let (_, _) := ?x in _) => destruct x
    end.

Lemma issues_fileToGenerativePart (p : string) : issues 0 0 (fileToGenerativePart p).
Proof.
  unfold fileToGenerativePart, fs_readFile.
  issues_seq 0 0; [issues_leaf | issues_cases; issues_leaf].
Qed.

Lemma issues_reads (ps : list string) :
  issues 0 0 (Promise_all (map fileToGenerativePart ps)).
Proof.
  apply issues_Promise_all, Forall_forall. intros m Hin.
  apply in_map_iff in Hin as [p [<- _]]. apply issues_fileToGenerativePart.
Qed.

Lemma issues_callOllama (prompt : string) : issues 1 0 (callOllama prompt).
Proof.
  intros w s. rewrite callOllama_state. cbn [history].
  exists [EvFetchGenerate (generate_url (this s))
            (request_for (ollamaModel (this s)) prompt)].
  cbn. repeat split; lia.
Qed.

Lemma issues_checkOllamaAvailable : issues 0 1 checkOllamaAvailable.
Proof.
  intros w s. rewrite checkOllamaAvailable_run. cbn [snd history].
  exists [EvFetchTags (tags_url (this s))]. cbn. repeat split; lia.
Qed.

Lemma issues_getOllamaModels : issues 0 1 getOllamaModels.
Proof.
  intros w s. destruct (useOllama (this s)) eqn:Hmode.
  - rewrite getOllamaModels_local by exact Hmode. cbn [snd history].
    exists [EvFetchTags (tags_url (this s))]. cbn. repeat split; lia.
  - rewrite getOllamaModels_cloud by exact Hmode. apply budget_refl.
Qed.

Lemma issues_model_generateContent (req : list Part) :
  issues 1 0 (model_generateContent req).
Proof.
  unfold model_generateContent.
  issues_seq 0 0; [issues_leaf |]. issues_cases; [| issues_leaf].
  issues_seq 1 0; [issues_leaf | issues_cases; issues_leaf].
Qed.

Lemma issues_text_and_timestamp (t : TextReply) : issues 0 0 (text_and_timestamp t).
Proof.
  unfold text_and_timestamp, response_text, Date_now.
  issues_seq 0 0; [issues_cases; issues_leaf |].
  issues_seq 0 0; issues_leaf.
Qed.

(** Every generation call sends at most one request, to the cloud. *)
Lemma issues_generate (g : Generation) : issues 1 0 (generate g).
Proof.
  assert (Hsend : forall req,
            issues 1 0 (response <- model_generateContent req ;;
                        text_and_timestamp response)).
  { intro req. issues_seq 1 0;
      [apply issues_model_generateContent | apply issues_text_and_timestamp]. }
  destruct g; cbn [generate];
    unfold generateSolution, extractProblemFromImages, debugSolutionWithImages,
      analyzeImageFile, analyzeAudioFile, analyzeAudioFromBase64, fs_readFile.
  - issues_seq 1 0; [apply Hsend | issues_leaf].
  - issues_seq 1 0; [| issues_leaf].
    issues_seq 0 0; [apply issues_reads | apply Hsend].
  - issues_seq 1 0; [| issues_leaf].
    issues_seq 0 0; [apply issues_reads | apply Hsend].
  - issues_seq 1 0; [| issues_leaf].
    issues_seq 0 0; [issues_leaf |]. issues_cases; [issues_leaf | apply Hsend].
  - issues_seq 1 0; [| issues_leaf].
    issues_seq 0 0; [issues_leaf |]. issues_cases; [issues_leaf | apply Hsend].
  - issues_seq 1 0; [apply Hsend | issues_leaf].
Qed.

Lemma issues_chatWithGemini (msg : string) : issues 1 0 (chatWithGemini msg).
Proof.
  unfold chatWithGemini, response_text.
  issues_seq 1 0; [| issues_leaf].
  issues_seq 0 0; [issues_leaf |].
  issues_cases; [apply issues_callOllama | | issues_leaf].
  issues_seq 1 0; [apply issues_model_generateContent | issues_cases; issues_leaf].
Qed.

Lemma issues_testConnection : issues 1 1 testConnection.
Proof.
  unfold testConnection, response_text.
  issues_seq 1 1; [| issues_leaf].
  issues_seq 0 0; [issues_leaf |].
  issues_cases.
  - issues_seq 0 1; [apply issues_checkOllamaAvailable |].
    issues_cases; [issues_leaf |].
    issues_seq 1 0; [apply issues_callOllama | issues_leaf].
  - issues_seq 1 0; [apply issues_model_generateContent |].
    issues_seq 0 0; [issues_cases; issues_leaf |].
    issues_cases; issues_leaf.
  - issues_leaf.
Qed.

(** The auto-selection: one probe at most, and at most two listings. *)
Lemma issues_initializeOllamaModel : issues 1 2 initializeOllamaModel.
Proof.
  unfold initializeOllamaModel.
  issues_seq 1 1.
  - issues_seq 0 1; [apply issues_getOllamaModels |].
    issues_cases; [issues_leaf |].
    issues_seq 0 0; [issues_leaf |].
    issues_seq 0 0; [issues_cases; issues_leaf |].
    issues_seq 1 0; [apply issues_callOllama | issues_leaf].
  - issues_seq 0 1; [| issues_leaf].
    issues_seq 0 1; [apply issues_getOllamaModels | issues_cases; issues_leaf].
Qed.

Lemma issues_switchToOllama (model url : option string) :
  issues 1 2 (switchToOllama model url).
Proof.
  unfold switchToOllama.
  issues_seq 0 0; [issues_leaf |].
  issues_seq 0 0; [issues_cases; issues_leaf |].
  issues_cases; first [apply issues_initializeOllamaModel | issues_leaf].
Qed.

Lemma issues_switchToGemini (key : option string) : issues 0 0 (switchToGemini key).
Proof.
  unfold switchToGemini.
  issues_seq 0 0; [issues_cases; issues_leaf |].
  issues_seq 0 0; [issues_leaf |].
  issues_cases; issues_leaf.
Qed.

Lemma issues_fmap {A B} (g l : nat) (f : A -> B) (m : M A) :
  issues g l m -> issues g l (fmap f m).
Proof.
  intros Hm. unfold fmap. apply (issues_bind g l); [exact Hm | | lia | lia].
  intro a. apply issues_ret.
Qed.

Lemma issues_query (q : Query) : issues 1 1 (query q).
Proof.
  destruct q; cbn [query]; unfold chat; apply issues_fmap.
  - apply (issues_weaken 1 0); [apply (issues_generate (GImages imagePaths)) | lia | lia].
  - apply (issues_weaken 1 0); [apply (issues_generate (GText problemInfo)) | lia | lia].
  - apply (issues_weaken 1 0);
      [apply (issues_generate (GImagesDebug problemInfo currentCode paths)) | lia | lia].
  - apply (issues_weaken 1 0); [apply (issues_generate (GAudio audioPath)) | lia | lia].
  - apply (issues_weaken 1 0);
      [apply (issues_generate (GAudioBase64 data0 mimeType0)) | lia | lia].
  - apply (issues_weaken 1 0); [apply (issues_generate (GImage imagePath)) | lia | lia].
  - apply (issues_weaken 1 0); [apply issues_chatWithGemini | lia | lia].
  - apply (issues_weaken 1 0); [apply issues_chatWithGemini | lia | lia].
  - unfold isUsingOllama. issues_seq 0 0; issues_leaf.
  - apply (issues_weaken 0 1); [apply issues_getOllamaModels | lia | lia].
  - unfold getCurrentProvider. issues_seq 0 0; issues_leaf.
  - unfold getCurrentModel. issues_seq 0 0; issues_leaf.
  - apply issues_testConnection.
Qed.

Lemma issues_perform (op : Operation) : issues 1 2 (perform op).
Proof.
  destruct op; cbn [perform].
  - apply (issues_weaken 1 1); [apply issues_query | lia | lia].
  - apply issues_fmap, issues_switchToOllama.
  - apply issues_fmap.
    apply (issues_weaken 0 0); [apply issues_switchToGemini | lia | lia].
Qed.

(** ** The generation calls *)

Lemma send_returns (w : World) (s s' : State) (req : list Part) (r : GenerationResult) :
  send req w s = (Return r, s') ->
  exists m,
    model (this s) = Some m
    /\ generateContent w (history s) m req = CloudResponse (Text (text r))
    /\ timestamp r = dateNow w (EvGenerateContent m req :: history s)
    /\ s' = mkState (this s) (EvDateNow :: EvGenerateContent m req :: history s).
Proof.
  unfold send, model_generateContent, text_and_timestamp, response_text, Date_now,
    bind, getThis, interact, ret, throw.
  destruct (model (this s)) as [m |]; [| discriminate].
  cbn [this history].
  destruct (generateContent w (history s) m req) as [e | [txt | e]] eqn:Hreply;
    try discriminate.
  intros [= <- <-]. exists m. repeat split. exact Hreply.
Qed.

Lemma send_null (w : World) (s : State) (req : list Part) :
  model (this s) = None -> send req w s = (Throw null_handle, s).
Proof.
  intros Hnull.
  unfold send, model_generateContent, bind, getThis. rewrite Hnull. reflexivity.
Qed.

(** Reading the attachments leaves the fields alone and only adds to the
    history. *)
Lemma reads_state (w : World) (s : State) (ps : list string) :
  exists evs,
    snd (Promise_all (map fileToGenerativePart ps) w s)
    = mkState (this s) (evs ++ history s)%list.
Proof.
  destruct (issues_reads ps w s) as (evs & Hh & _).
  pose proof (keeps_reads ps w s) as Hf.
  exists evs. destruct (snd _) as [o h]. cbn [this history] in *. congruence.
Qed.

(** An error that comes out of reading attachments is one the file system
    gave. *)
Lemma reads_throw (w : World) (ps : list string) :
  forall (s : State) (e : JsError),
    fst (Promise_all (map fileToGenerativePart ps) w s) = Throw e ->
    exists h p, readFile w h p = FileRejects e.
Proof.
  induction ps as [| p rest IH]; intros s e; cbn [map Promise_all].
  - discriminate.
  - destruct (fileToGenerativePart p w s) as [o s1] eqn:Hp.
    destruct (Promise_all (map fileToGenerativePart rest) w s1) as [os s2] eqn:Hrest.
    cbn [fst]. destruct o as [a | e0].
    + destruct os as [l | e1]; [discriminate |]. intros [= <-].
      apply (IH s1). rewrite Hrest. reflexivity.
    + intros [= <-]. exists (history s), p.
      unfold fileToGenerativePart, fs_readFile, bind, interact in Hp.
      destruct (readFile w (history s) p); [| discriminate].
      unfold throw in Hp. congruence.
Qed.

(** A generation call that returns went through the cloud handle exactly
    once; its text is the text of the reply and its timestamp the clock read
    right after. *)
Lemma generate_returns (w : World) (g : Generation) (s s' : State)
    (r : GenerationResult) :
  generate g w s = (Return r, s') ->
  exists m req h,
    model (this s) = Some m
    /\ later (history s) h
    /\ generateContent w h m req = CloudResponse (Text (text r))
    /\ timestamp r = dateNow w (EvGenerateContent m req :: h)
    /\ history s' = EvDateNow :: EvGenerateContent m req :: h.
Proof.
  assert (Hsend : forall s0 req,
            this s0 = this s -> later (history s) (history s0) ->
            send req w s0 = (Return r, s') ->
            exists m req h,
              model (this s) = Some m
              /\ later (history s) h
              /\ generateContent w h m req = CloudResponse (Text (text r))
              /\ timestamp r = dateNow w (EvGenerateContent m req :: h)
              /\ history s' = EvDateNow :: EvGenerateContent m req :: h).
  { intros s0 req Hthis Hlater Hrun.
    apply send_returns in Hrun as (m & Hm & Hreply & Hts & ->).
    exists m, req, (history s0). rewrite <- Hthis. repeat split; assumption. }
  assert (Hself : later (history s) (history s)) by (exists []; reflexivity).
  assert (Hreads : forall ps k,
            (imageParts <- Promise_all (map fileToGenerativePart ps) ;;
             send (k imageParts)) w s = (Return r, s') ->
            exists m req h,
              model (this s) = Some m
              /\ later (history s) h
              /\ generateContent w h m req = CloudResponse (Text (text r))
              /\ timestamp r = dateNow w (EvGenerateContent m req :: h)
              /\ history s' = EvDateNow :: EvGenerateContent m req :: h).
  { intros ps k. unfold bind at 1.
    destruct (reads_state w s ps) as (evs & Hst).
    destruct (Promise_all (map fileToGenerativePart ps) w s) as [[parts | e] s1];
      [| discriminate].
    cbn [snd] in Hst. subst s1. apply Hsend; [reflexivity |].
    exists evs. reflexivity. }
  assert (Hread : forall p k,
            (f <- fs_readFile p ;;
             match f with
             | FileRejects e => throw e
             | FileBytes bytes => send (k bytes)
             end) w s = (Return r, s') ->
            exists m req h,
              model (this s) = Some m
              /\ later (history s) h
              /\ generateContent w h m req = CloudResponse (Text (text r))
              /\ timestamp r = dateNow w (EvGenerateContent m req :: h)
              /\ history s' = EvDateNow :: EvGenerateContent m req :: h).
  { intros p k. unfold bind at 1, fs_readFile, interact.
    destruct (readFile w (history s) p) as [e | bytes]; [discriminate |].
    apply Hsend; [reflexivity |]. exists [EvReadFile p]. reflexivity. }
  destruct g; cbn [generate];
    unfold generateSolution, extractProblemFromImages, debugSolutionWithImages,
      analyzeImageFile, analyzeAudioFile, analyzeAudioFromBase64, try_catch;
    fold (send);
    match goal with
    | |- context [match ?run w s with _ => _ end] =>
        destruct (run w s) as [[r0 | e0] s0] eqn:Hrun; [intros [= <- <-] | discriminate]
    end.
  - revert Hrun. apply Hsend; [reflexivity | exact Hself].
  - revert Hrun. apply (Hreads imagePaths (fun parts => TextPart _ :: parts)).
  - revert Hrun. apply (Hreads paths (fun parts => TextPart _ :: parts)).
  - revert Hrun.
    apply (Hread imagePath
             (fun bytes => [TextPart _; InlinePart (mkInline (base64 bytes) "image/png")])).
  - revert Hrun.
    apply (Hread audioPath
             (fun bytes => [TextPart _; InlinePart (mkInline (base64 bytes) "audio/mp3")])).
  - revert Hrun. apply Hsend; [reflexivity | exact Hself].
Qed.

(** Without a cloud handle every generation call throws: the [TypeError] of
    the [null] dereference, or before that an error of the file system. *)
Lemma generate_null (w : World) (g : Generation) (s : State) :
  model (this s) = None ->
  exists e,
    fst (generate g w s) = Throw e
    /\ (e = null_handle \/ exists h p, readFile w h p = FileRejects e).
Proof.
  intros Hnull.
  assert (Hsend : forall req,
            exists e,
              fst (try_catch (send req) (fun err => throw err) w s) = Throw e
              /\ (e = null_handle \/ exists h p, readFile w h p = FileRejects e)).
  { intro req. unfold try_catch. rewrite send_null by exact Hnull.
    exists null_handle. split; [reflexivity | left; reflexivity]. }
  assert (Hreads : forall ps k,
            exists e,
              fst (try_catch
                     (imageParts <- Promise_all (map fileToGenerativePart ps) ;;
                      send (k imageParts)) (fun err => throw err) w s) = Throw e
              /\ (e = null_handle \/ exists h p, readFile w h p = FileRejects e)).
  { intros ps k. unfold try_catch, bind at 1.
    destruct (reads_state w s ps) as (evs & Hst).
    pose proof (reads_throw w ps s) as Hthrow.
    destruct (Promise_all (map fileToGenerativePart ps) w s) as [[parts | e] s1].
    - cbn [snd] in Hst. subst s1. rewrite send_null by exact Hnull.
      exists null_handle. split; [reflexivity | left; reflexivity].
    - exists e. split; [reflexivity | right; apply Hthrow; reflexivity]. }
  assert (Hread : forall p k,
            exists e,
              fst (try_catch
                     (f <- fs_readFile p ;;
                      match f with
                      | FileRejects e => throw e
                      | FileBytes bytes => send (k bytes)
                      end) (fun err => throw err) w s) = Throw e
              /\ (e = null_handle \/ exists h p, readFile w h p = FileRejects e)).
  { intros p k. unfold try_catch, bind at 1, fs_readFile, interact.
    destruct (readFile w (history s) p) as [e | bytes] eqn:Hfile.
    - exists e. split; [reflexivity | right; exists (history s), p; exact Hfile].
    - rewrite send_null by exact Hnull.
      exists null_handle. split; [reflexivity | left; reflexivity]. }
  destruct g; cbn [generate];
    unfold generateSolution, extractProblemFromImages, debugSolutionWithImages,
      analyzeImageFile, analyzeAudioFile, analyzeAudioFromBase64;
    fold (send).
  - apply (Hsend [TextPart _]).
  - apply (Hreads imagePaths (fun parts => TextPart _ :: parts)).
  - apply (Hreads paths (fun parts => TextPart _ :: parts)).
  - apply (Hread imagePath
             (fun bytes => [TextPart _; InlinePart (mkInline (base64 bytes) "image/png")])).
  - apply (Hread audioPath
             (fun bytes => [TextPart _; InlinePart (mkInline (base64 bytes) "audio/mp3")])).
  - apply (Hsend [TextPart _; InlinePart (mkInline data0 mimeType0)]).
Qed.

(** ** Independence from the provider mode *)

Lemma blind_ret {A} (a : A) : mode_blind (ret a).
Proof. intros w s1 s2 H. split; [reflexivity | exact H]. Qed.

Lemma blind_throw {A} (e : JsError) : mode_blind (@throw A e).
Proof. intros w s1 s2 H. split; [reflexivity | exact H]. Qed.

Lemma blind_interact {A} (ev : Event) (f : World -> History -> A) :
  mode_blind (interact ev f).
Proof.
  intros w s1 s2 [Hm Hh]. unfold interact, same_cloud. cbn. rewrite Hh.
  repeat split. exact Hm.
Qed.

Lemma blind_bind {A B} (m : M A) (k : A -> M B) :
  mode_blind m -> (forall a, mode_blind (k a)) -> mode_blind (bind m k).
Proof.
  intros Hm Hk w s1 s2 H. unfold bind. destruct (Hm w s1 s2 H) as [Ho Hs].
  destruct (m w s1) as [o1 t1], (m w s2) as [o2 t2]. cbn [fst snd] in *. subst o2.
  destruct o1 as [a | e]; [apply Hk; exact Hs | split; [reflexivity | exact Hs]].
Qed.

Lemma blind_try {A} (m : M A) (h : JsError -> M A) :
  mode_blind m -> (forall e, mode_blind (h e)) -> mode_blind (try_catch m h).
Proof.
  intros Hm Hh w s1 s2 H. unfold try_catch. destruct (Hm w s1 s2 H) as [Ho Hs].
  destruct (m w s1) as [o1 t1], (m w s2) as [o2 t2]. cbn [fst snd] in *. subst o2.
  destruct o1 as [a | e]; [split; [reflexivity | exact Hs] | apply Hh; exact Hs].
Qed.

Lemma blind_Promise_all {A} (ps : list (M A)) :
  Forall mode_blind ps -> mode_blind (Promise_all ps).
Proof.
  induction 1 as [| p rest Hp _ IH]; intros w s1 s2 H; cbn [Promise_all].
  - split; [reflexivity | exact H].
  - destruct (Hp w s1 s2 H) as [Ho Hs].
    destruct (p w s1) as [o1 t1], (p w s2) as [o2 t2]. cbn [fst snd] in *. subst o2.
    destruct (IH w t1 t2 Hs) as [Hos Hss].
    destruct (Promise_all rest w t1) as [os1 u1], (Promise_all rest w t2) as [os2 u2].
    cbn [fst snd] in *. subst os2. split; [reflexivity | exact Hss].
Qed.

Lemma blind_model_generateContent (req : list Part) :
  mode_blind (model_generateContent req).
Proof.
  intros w s1 s2 [Hm Hh].
  unfold model_generateContent, bind, getThis, interact, same_cloud.
  cbn [this]. rewrite <- Hm. destruct (model (this s1)) as [g |] eqn:Hg.
  - cbn [history this]. rewrite <- Hh.
    destruct (generateContent w (history s1) g req); unfold throw, ret;
      cbn [fst snd this history]; repeat split; congruence.
  - unfold throw. cbn [fst snd]. repeat split; congruence.
Qed.

Ltac blind_step :=
  first
    [ apply blind_ret | apply blind_throw | apply blind_interact
    | apply blind_model_generateContent
    | apply blind_bind | apply blind_try
    | match goal with
      | |- forall _, _ => intro
      | |- mode_blind (match ?x with _ => _ end) => destruct x
      end ].

Lemma blind_reads (ps : list string) :
  mode_blind (Promise_all (map fileToGenerativePart ps)).
Proof.
  apply blind_Promise_all, Forall_forall. intros m Hin.
  apply in_map_iff in Hin as [p [<- _]].
  unfold fileToGenerativePart, fs_readFile. repeat blind_step.
Qed.

Lemma blind_generate (g : Generation) : mode_blind (generate g).
Proof.
  destruct g; cbn [generate];
    unfold generateSolution, extractProblemFromImages, debugSolutionWithImages,
      analyzeImageFile, analyzeAudioFile, analyzeAudioFromBase64, fs_readFile,
      text_and_timestamp, response_text, Date_now;
    repeat first [ apply blind_reads | blind_step ].
Qed.

(** ** Auxiliary facts for the statements *)

(** In local mode a chat is the call to the local server and nothing else. *)
Lemma chat_local (w : World) (s : State) (msg : string) :
  useOllama (this s) = true -> chat msg w s = callOllama msg w s.
Proof.
  intros Hmode. unfold chat, chatWithGemini, try_catch, bind at 1, getThis at 1.
  rewrite Hmode. destruct (callOllama msg w s) as [[r | e] s1]; reflexivity.
Qed.

Lemma clock_later (w : World) (h h' : History) :
  clock_monotone w -> later h h' -> (dateNow w h <= dateNow w h')%Z.
Proof.
  intros Hclock [evs ->]. induction evs as [| ev evs IH]; cbn [app].
  - lia.
  - specialize (Hclock (evs ++ h)%list ev). lia.
Qed.

Lemma later_trans (h1 h2 h3 : History) : later h1 h2 -> later h2 h3 -> later h1 h3.
Proof.
  intros [e1 ->] [e2 ->]. exists (e2 ++ e1)%list. apply app_assoc.
Qed.

Lemma later_cons (ev : Event) (h h' : History) : later h h' -> later h (ev :: h').
Proof. intros [evs ->]. exists (ev :: evs). reflexivity. Qed.

Lemma later_refl (h : History) : later h h.
Proof. exists []. reflexivity. Qed.

Lemma getCurrentModel_local (w : World) (s : State) :
  useOllama (this s) = true ->
  fst (getCurrentModel w s) = Return (ollamaModel (this s)).
Proof.
  intros Hmode. unfold getCurrentModel, bind, getThis, ret. cbn [fst].
  rewrite Hmode. reflexivity.
Qed.

(** After [switchToOllama] the gateway is in local mode, whatever happened
    on the way. *)
Lemma switchToOllama_mode (w : World) (s : State) (model url : option string) :
  useOllama (this (snd (switchToOllama model url w s))) = true.
Proof.
  destruct (truthy model) eqn:Hm.
  - destruct model as [m |]; [| discriminate].
    rewrite switchToOllama_named by exact Hm. reflexivity.
  - rewrite switchToOllama_unnamed by exact Hm.
    assert (Hlocal : useOllama (this (entering url s)) = true) by reflexivity.
    set (names := names_of (fetchTags w (history (entering url s))
                              (tags_url (this (entering url s))))).
    destruct names as [| first rest] eqn:Hnames.
    + rewrite (initialize_no_models w _ Hlocal Hnames). reflexivity.
    + destruct (answers (fetchGenerate w
                  (EvFetchTags (tags_url (this (entering url s)))
                     :: history (entering url s))
                  (generate_url (this (entering url s)))
                  (request_for
                     (kept_or_first (first :: rest) (ollamaModel (this (entering url s))))
                     "Hello"))) eqn:Hprobe.
      * rewrite (initialize_probe_answers w _ Hlocal first rest Hnames)
          by (fold names; rewrite Hnames; exact Hprobe).
        reflexivity.
      * rewrite (initialize_probe_fails w _ Hlocal first rest Hnames)
          by (fold names; rewrite Hnames; exact Hprobe).
        reflexivity.
Qed.

(** * The claims *)

(** ** Auto-selection of the local model *)

(** C1, as stated, fails: a gateway built in cloud mode carries the default
    local model ["llama3.2"]; when the server lists ["mistral"] first and
    ["llama3.2"] second, [switchToOllama()] keeps ["llama3.2"] although the
    first entry of the listing is ["mistral"]. *)
Lemma switchToOllama_keeps_configured_model :
  let w := serving ["mistral"; "llama3.2"] "" in
  let s := start cloud_helper in
  fst (getOllamaModels w (entering None s)) = Return ["mistral"; "llama3.2"]
  /\ fst (getCurrentModel w (snd (switchToOllama None None w s))) = Return "llama3.2"
  /\ fst (getCurrentModel w (snd (switchToOllama None None w s))) <> Return "mistral".
Proof.
  cbv zeta. split; [reflexivity | split; [reflexivity | discriminate]].
Qed.

(** C1 (amended): [switchToOllama] without a model name, when the listing
    fetched at that moment is not empty and the probe of the model answers,
    leaves as active model the configured name if the listing contains it,
    and the first entry of the listing otherwise. *)
Theorem switchToOllama_keeps_or_adopts_first (w : World) (s : State)
    (model url : option string) (first : string) (rest : list string) :
  truthy model = false ->
  fst (getOllamaModels w (entering url s)) = Return (first :: rest) ->
  answers (fetchGenerate w
             (history (snd (getOllamaModels w (entering url s))))
             (generate_url (this (entering url s)))
             (request_for
                (if includes (first :: rest) (ollamaModel (this s))
                 then ollamaModel (this s) else first)
                "Hello")) = true ->
  fst (getCurrentModel w (snd (switchToOllama model url w s)))
  = Return (if includes (first :: rest) (ollamaModel (this s))
            then ollamaModel (this s) else first).
Proof.
  intros Hmodel Hlist Hprobe.
  rewrite getCurrentModel_local by apply switchToOllama_mode.
  rewrite switchToOllama_unnamed by exact Hmodel.
  assert (Hlocal : useOllama (this (entering url s)) = true) by reflexivity.
  rewrite (getOllamaModels_local w _ Hlocal) in Hlist, Hprobe.
  assert (Hnames : names_of (fetchTags w (history (entering url s))
                               (tags_url (this (entering url s)))) = first :: rest)
    by (injection Hlist as Hlist; exact Hlist).
  rewrite (initialize_probe_answers w _ Hlocal first rest Hnames).
  - cbn [snd this ollamaModel set_ollamaModel]. rewrite Hnames. reflexivity.
  - rewrite Hnames. exact Hprobe.
Qed.

Lemma switchToOllama_keeps_or_adopts_first_witness :
  fst (getCurrentModel (serving ["mistral"; "codellama"] "")
         (snd (switchToOllama None None (serving ["mistral"; "codellama"] "")
                 (start cloud_helper))))
  = Return "mistral".
Proof.
  apply (switchToOllama_keeps_or_adopts_first
           (serving ["mistral"; "codellama"] "") (start cloud_helper)
           None None "mistral" ["codellama"]); reflexivity.
Defined.




(** The same scenario when the probe of the substituted model fails, when
    the server goes away after its first answer, and when the detached call
    of the constructor is the one that substitutes. *)
Example scenario_probe_fails :
  fst (getCurrentModel (listing_only ["llama3.2"; "mistral"])
         (snd (switchToOllama None None (listing_only ["llama3.2"; "mistral"])
                 (start misconfigured_helper))))
  = Return "llama3.2".
Proof. reflexivity. Qed.

Example scenario_server_vanishes :
  fst (getCurrentModel (vanishing ["llama3.2"; "mistral"])
         (snd (switchToOllama None None (vanishing ["llama3.2"; "mistral"])
                 (start misconfigured_helper))))
  = Return "llama3.2".
Proof. reflexivity. Qed.

Example scenario_constructor :
  match settled (serving ["llama3.2"; "mistral"] "") None true
          (Some "nonexistent-model") None with
  | Return s => ollamaModel (this s) = "llama3.2"
  | Throw _ => False
  end.
Proof. reflexivity. Qed.

(** ** The fallback after a failed probe *)

(** C3, as stated, fails on "otherwise surfaces the failure": the server
    lists its models once and then goes away, so the probe of the substituted
    model fails and the freshly fetched list offers nothing to substitute;
    [switchToOllama()] still completes normally and no failure reaches the
    caller. *)
Lemma switchToOllama_swallows_probe_failure :
  let w := vanishing ["llama3.2"; "mistral"] in
  let s := start misconfigured_helper in
  let tags := EvFetchTags "http://localhost:11434/api/tags" in
  let probe := EvFetchGenerate "http://localhost:11434/api/generate"
                 (request_for "llama3.2" "Hello") in
  let probing := mkState (set_ollamaModel "llama3.2" misconfigured_helper) [tags] in
  thrown (fst (callOllama "Hello" w probing)) = true
  /\ getOllamaModels w (snd (callOllama "Hello" w probing))
     = (Return [], mkState (set_ollamaModel "llama3.2" misconfigured_helper)
                     [tags; probe; tags])
  /\ switchToOllama None None w s
     = (Return tt, mkState (set_ollamaModel "llama3.2" misconfigured_helper)
                     [tags; probe; tags]).
Proof.
  cbv zeta. split; [reflexivity | split; reflexivity].
Qed.

(** C3 (amended): when the probe that follows the auto-selection fails, the
    gateway fetches the list exactly once more and adopts its first entry if
    there is one; it sends no second probe and completes normally, so that
    the probe's failure is not surfaced.  No operation sends more than one
    generation request or more than two listing requests, and a chat whose
    request fails in local mode throws after that single request. *)
Theorem initialize_single_fallback (w : World) (s : State)
    (model url : option string) (first : string) (rest : list string) :
  truthy model = false ->
  fst (getOllamaModels w (entering url s)) = Return (first :: rest) ->
  answers (fetchGenerate w
             (history (snd (getOllamaModels w (entering url s))))
             (generate_url (this (entering url s)))
             (request_for
                (if includes (first :: rest) (ollamaModel (this s))
                 then ollamaModel (this s) else first)
                "Hello")) = false ->
  let chosen := if includes (first :: rest) (ollamaModel (this s))
                then ollamaModel (this s) else first in
  let tags := EvFetchTags (tags_url (this (entering url s))) in
  let probe := EvFetchGenerate (generate_url (this (entering url s)))
                 (request_for chosen "Hello") in
  let again := names_of (fetchTags w (probe :: tags :: history s)
                           (tags_url (this (entering url s)))) in
  fst (switchToOllama model url w s) = Return tt
  /\ history (snd (switchToOllama model url w s)) = tags :: probe :: tags :: history s
  /\ ollamaModel (this (snd (switchToOllama model url w s))) = hd chosen again
  /\ (forall (op : Operation) (w0 : World) (s0 : State),
        budget 1 2 (history s0) (history (snd (perform op w0 s0))))
  /\ (forall (msg : string) (w0 : World) (s0 : State),
        useOllama (this s0) = true ->
        answers (fetchGenerate w0 (history s0) (generate_url (this s0))
                   (request_for (ollamaModel (this s0)) msg)) = false ->
        thrown (fst (chat msg w0 s0)) = true
        /\ snd (chat msg w0 s0)
           = mkState (this s0)
               (EvFetchGenerate (generate_url (this s0))
                  (request_for (ollamaModel (this s0)) msg) :: history s0)).
Proof.
  intros Hmodel Hlist Hprobe. cbv zeta.
  assert (Hlocal : useOllama (this (entering url s)) = true) by reflexivity.
  rewrite (getOllamaModels_local w _ Hlocal) in Hlist, Hprobe.
  assert (Hnames : names_of (fetchTags w (history (entering url s))
                               (tags_url (this (entering url s)))) = first :: rest)
    by (injection Hlist as Hlist; exact Hlist).
  rewrite switchToOllama_unnamed by exact Hmodel.
  rewrite (initialize_probe_fails w _ Hlocal first rest Hnames)
    by (rewrite Hnames; exact Hprobe).
  rewrite Hnames.
  split; [reflexivity | split; [reflexivity | split; [reflexivity | split]]].
  - intros op w0 s0. apply issues_perform.
  - intros msg w0 s0 Hmode Hfail.
    rewrite (chat_local w0 s0 msg Hmode). unfold thrown.
    rewrite callOllama_returned, Hfail, callOllama_state. split; reflexivity.
Qed.

Lemma initialize_single_fallback_witness :
  fst (switchToOllama None None (listing_only ["llama3.2"; "mistral"])
         (start misconfigured_helper)) = Return tt
  /\ history (snd (switchToOllama None None (listing_only ["llama3.2"; "mistral"])
                     (start misconfigured_helper)))
     = [EvFetchTags "http://localhost:11434/api/tags";
        EvFetchGenerate "http://localhost:11434/api/generate"
          (request_for "llama3.2" "Hello");
        EvFetchTags "http://localhost:11434/api/tags"]
  /\ ollamaModel (this (snd (switchToOllama None None
                               (listing_only ["llama3.2"; "mistral"])
                               (start misconfigured_helper))))
     = "llama3.2".
Proof.
  pose proof (initialize_single_fallback
                (listing_only ["llama3.2"; "mistral"]) (start misconfigured_helper)
                None None "llama3.2" ["mistral"]
                eq_refl eq_refl eq_refl) as (Hret & Hhist & Hmodel & _).
  split; [exact Hret | split; [exact Hhist | exact Hmodel]].
Defined.

(** ** Operations that never throw *)

(** C4: [testConnection] never throws, whatever the state and whatever the
    backends do: it returns a result that is a success without error text or
    a failure with one. *)
Theorem testConnection_never_throws (w : World) (s : State) :
  exists r,
    fst (testConnection w s) = Return r
    /\ ((success r = true /\ error r = None)
        \/ (success r = false /\ exists msg, error r = Some msg)).
Proof.
  unfold testConnection, try_catch, bind at 1, getThis at 1.
  destruct (useOllama (this s)).
  - unfold bind at 1. rewrite checkOllamaAvailable_run.
    destruct (negb (unreachable_or_error _)); cbn [negb].
    + unfold bind.
      destruct (callOllama "Hello" w _) as [[r | e] s1]; cbn [fst ret].
      * eexists; split; [reflexivity | left; split; reflexivity].
      * eexists; split; [reflexivity | right; split; [reflexivity | eexists; reflexivity]].
    + eexists; split; [reflexivity | right; split; [reflexivity | eexists; reflexivity]].
  - destruct (model (this s)) as [g |] eqn:Hg.
    + unfold bind, model_generateContent, bind, getThis, interact, response_text.
      rewrite Hg. cbn [this history].
      destruct (generateContent w (history s) g [TextPart "Hello"]) as [e | [txt | e]];
        cbn [fst ret throw].
      * eexists; split; [reflexivity | right; split; [reflexivity | eexists; reflexivity]].
      * destruct (txt =? ""); cbn [negb fst ret].
        -- eexists; split; [reflexivity | right; split; [reflexivity | eexists; reflexivity]].
        -- eexists; split; [reflexivity | left; split; reflexivity].
      * eexists; split; [reflexivity | right; split; [reflexivity | eexists; reflexivity]].
    + eexists; split; [reflexivity | right; split; [reflexivity | eexists; reflexivity]].
Qed.

(** C5: [getOllamaModels] never throws, and when the server is unreachable
    or answers with an error status it returns the empty list. *)
Theorem getOllamaModels_never_raises (w : World) (s : State) :
  returned (fst (getOllamaModels w s)) = true
  /\ (unreachable_or_error (fetchTags w (history s) (tags_url (this s))) = true ->
      fst (getOllamaModels w s) = Return []).
Proof.
  destruct (useOllama (this s)) eqn:Hmode.
  - rewrite getOllamaModels_local by exact Hmode. split; [reflexivity |].
    cbn [fst]. unfold unreachable_or_error, names_of.
    destruct (fetchTags w (history s) (tags_url (this s)))
      as [e | status statusText body]; [reflexivity |].
    destruct (ok status); [discriminate | destruct body; reflexivity].
  - rewrite getOllamaModels_cloud by exact Hmode. split; reflexivity.
Qed.

Lemma getOllamaModels_never_raises_witness :
  fst (getOllamaModels offline (start misconfigured_helper)) = Return [].
Proof.
  apply (proj2 (getOllamaModels_never_raises offline (start misconfigured_helper))).
  reflexivity.
Defined.

(** C10: in cloud mode [getOllamaModels] returns the empty list at once: the
    history is untouched, so the local server was not contacted, whatever it
    would have answered. *)
Theorem getOllamaModels_cloud_mode (w : World) (s : State) :
  useOllama (this s) = false ->
  getOllamaModels w s = (Return [], s).
Proof. apply getOllamaModels_cloud. Qed.

Lemma getOllamaModels_cloud_mode_witness :
  getOllamaModels (serving ["llama3.2"; "mistral"] "") (start cloud_helper)
  = (Return [], start cloud_helper).
Proof.
  apply (getOllamaModels_cloud_mode (serving ["llama3.2"; "mistral"] "")
           (start cloud_helper)).
  reflexivity.
Defined.

(** ** Construction *)

(** C8: the constructor throws exactly when local mode is off and no
    non-empty credential is given; otherwise it returns the gateway, in the
    mode that was asked for. *)
Theorem constructor_throws_iff (apiKey : option string) (useOllama0 : bool)
    (ollamaModel0 ollamaUrl0 : option string) :
  match constructor apiKey useOllama0 ollamaModel0 ollamaUrl0 with
  | Throw e =>
      useOllama0 = false /\ truthy apiKey = false
      /\ e = Error "Either provide Gemini API key or enable Ollama mode"
  | Return o =>
      (useOllama0 = true \/ truthy apiKey = true) /\ useOllama o = useOllama0
  end.
Proof.
  unfold constructor. destruct useOllama0.
  - split; [left; reflexivity | reflexivity].
  - destruct apiKey as [key |].
    + destruct (truthy (Some key)) eqn:Hkey.
      * split; [right; reflexivity | reflexivity].
      * repeat split.
    + repeat split.
Qed.

(** ** The provider mode *)

(** C9: no method other than the two switches changes the provider mode,
    whether it returns or throws: after any such call [useOllama] is what it
    was, and so is every other field of the gateway. *)
Theorem query_keeps_mode (q : Query) (w : World) (s : State) :
  useOllama (this (snd (query q w s))) = useOllama (this s)
  /\ fst (getCurrentProvider w (snd (query q w s))) = fst (getCurrentProvider w s)
  /\ this (snd (query q w s)) = this s.
Proof.
  pose proof (keeps_query q w s) as Hkeep.
  unfold getCurrentProvider, bind, getThis, ret. cbn [fst].
  rewrite Hkeep. repeat split.
Qed.

(** * Further properties of the code *)

(** ** The local backend *)

(** X1: what [callOllama] makes of each reply.  A completion is returned as
    it is; a rejected fetch, an error status and an unreadable body are each
    thrown as a new [Error] whose message quotes the cause and the endpoint,
    the cause of an error status being the status line. *)
Theorem callOllama_outcome (w : World) (s : State) (prompt : string) :
  fst (callOllama prompt w s)
  = match fetchGenerate w (history s) (generate_url (this s))
            (request_for (ollamaModel (this s)) prompt) with
    | FetchRejects e =>
        Throw (connection_failure (message e) (ollamaUrl (this s)))
    | Response status statusText body =>
        if ok status then
          match body with
          | Json d => Return (response d)
          | JsonRejects e =>
              Throw (connection_failure (message e) (ollamaUrl (this s)))
          end
        else
          Throw (connection_failure
                   ("Ollama API error: " ++ show_nat status ++ " " ++ statusText)
                   (ollamaUrl (this s)))
    end.
Proof.
  unfold callOllama, try_catch, bind, getThis, await_fetch, fetch_generate,
    interact, bind, generate_url, request_for, connection_failure.
  cbn [this history].
  destruct (fetchGenerate w (history s) _ _) as [e | status statusText body];
    [reflexivity |].
  cbn [ret throw]. destruct (ok status); cbn [negb]; [| reflexivity].
  destruct body; reflexivity.
Qed.

(** X2: in local mode [getOllamaModels] returns a non-empty list exactly when
    the server answered with a success status and a body whose [models] is
    that list; in cloud mode it never does. *)
Theorem getOllamaModels_nonempty_iff (w : World) (s : State) (first : string)
    (rest : list string) :
  fst (getOllamaModels w s) = Return (first :: rest)
  <-> useOllama (this s) = true
      /\ exists status statusText,
           fetchTags w (history s) (tags_url (this s))
           = Response status statusText (Json (mkTags (Some (first :: rest))))
           /\ ok status = true.
Proof.
  destruct (useOllama (this s)) eqn:Hmode.
  - rewrite getOllamaModels_local by exact Hmode. cbn [fst]. unfold names_of.
    destruct (fetchTags w (history s) (tags_url (this s)))
      as [e | status statusText body].
    + split; [intros H; discriminate H | intros [_ (st & stx & [=] & _)]].
    + destruct (ok status) eqn:Hok.
      * destruct body as [[[names |]] | e]; cbn [models].
        -- split.
           ++ intros [= ->]. split; [reflexivity |].
              exists status, statusText. split; [reflexivity | exact Hok].
           ++ intros [_ (st & stx & [= -> -> ->] & _)]. reflexivity.
        -- split; [intros H; discriminate H | intros [_ (st & stx & [=] & _)]].
        -- split; [intros H; discriminate H | intros [_ (st & stx & [=] & _)]].
      * split; [destruct body; intros H; discriminate H |].
        intros [_ (st & stx & [= -> _ _] & Hok')]. congruence.
  - rewrite getOllamaModels_cloud by exact Hmode. cbn [fst].
    split; [intros H; discriminate H | intros [[=] _]].
Qed.

Lemma getOllamaModels_nonempty_iff_witness :
  fst (getOllamaModels (serving ["llama3.2"; "mistral"] "") (start misconfigured_helper))
  = Return ["llama3.2"; "mistral"].
Proof.
  apply (proj2 (getOllamaModels_nonempty_iff (serving ["llama3.2"; "mistral"] "")
                  (start misconfigured_helper) "llama3.2" ["mistral"])).
  split; [reflexivity |]. exists 200, "OK". split; reflexivity.
Defined.

(** ** [testConnection] *)

(** X3: [testConnection] reports success exactly when, in local mode, the
    listing endpoint answers with a success status and the probe that
    follows carries a completion, and, in cloud mode, a handle exists and the
    cloud replies a non-empty text. *)
Theorem testConnection_success_iff (w : World) (s : State) :
  connected w s
  = if useOllama (this s) then
      negb (unreachable_or_error (fetchTags w (history s) (tags_url (this s))))
      && answers (fetchGenerate w (EvFetchTags (tags_url (this s)) :: history s)
                    (generate_url (this s))
                    (request_for (ollamaModel (this s)) "Hello"))
    else
      match model (this s) with
      | None => false
      | Some g =>
          match generateContent w (history s) g [TextPart "Hello"] with
          | CloudResponse (Text txt) => negb (txt =? "")
          | _ => false
          end
      end.
Proof.
  unfold connected, testConnection, try_catch, bind at 1, getThis at 1.
  destruct (useOllama (this s)).
  - unfold bind at 1. rewrite checkOllamaAvailable_run.
    destruct (negb (unreachable_or_error _)); cbn [negb andb]; [| reflexivity].
    unfold bind.
    pose proof (callOllama_returned w
                  (mkState (this s) (EvFetchTags (tags_url (this s)) :: history s))
                  "Hello") as Hret.
    cbn [this history] in Hret. rewrite <- Hret.
    destruct (callOllama "Hello" w _) as [[r | e] s1]; reflexivity.
  - destruct (model (this s)) as [g |] eqn:Hg; [| reflexivity].
    unfold bind, model_generateContent, bind, getThis, interact, response_text.
    rewrite Hg. cbn [this history].
    destruct (generateContent w (history s) g [TextPart "Hello"]) as [e | [txt | e]];
      cbn [fst ret throw]; try reflexivity.
    destruct (txt =? ""); reflexivity.
Qed.

(** X4: in local mode, when the listing endpoint is unreachable or answers
    with an error status, [testConnection] reports the failure with the
    endpoint in its text, after that single request: no prompt is sent. *)
Theorem testConnection_unreachable (w : World) (s : State) :
  useOllama (this s) = true ->
  unreachable_or_error (fetchTags w (history s) (tags_url (this s))) = true ->
  testConnection w s
  = (Return (mkConnection false
               (Some ("Ollama not available at " ++ ollamaUrl (this s)))),
     mkState (this s) (EvFetchTags (tags_url (this s)) :: history s)).
Proof.
  intros Hmode Hdown.
  unfold testConnection, try_catch, bind at 1, getThis at 1. rewrite Hmode.
  unfold bind at 1. rewrite checkOllamaAvailable_run, Hdown. reflexivity.
Qed.

Lemma testConnection_unreachable_witness :
  testConnection offline (start misconfigured_helper)
  = (Return (mkConnection false
               (Some "Ollama not available at http://localhost:11434")),
     mkState misconfigured_helper [EvFetchTags "http://localhost:11434/api/tags"]).
Proof.
  apply (testConnection_unreachable offline (start misconfigured_helper));
    reflexivity.
Defined.

(** X5: in cloud mode [testConnection] reports the cloud's own message when
    the request or the reading of the text fails, and a message of its own
    for an empty text; it asks the cloud once and never the local server. *)
Theorem testConnection_cloud (w : World) (s : State) (g : GenerativeModel) :
  useOllama (this s) = false ->
  model (this s) = Some g ->
  testConnection w s
  = (Return
       match generateContent w (history s) g [TextPart "Hello"] with
       | CloudRejects e => mkConnection false (Some (message e))
       | CloudResponse (TextThrows e) => mkConnection false (Some (message e))
       | CloudResponse (Text txt) =>
           if txt =? "" then mkConnection false (Some "Empty response from Gemini")
           else mkConnection true None
       end,
     mkState (this s) (EvGenerateContent g [TextPart "Hello"] :: history s)).
Proof.
  intros Hmode Hg.
  unfold testConnection, try_catch, bind at 1, getThis at 1. rewrite Hmode, Hg.
  unfold bind, model_generateContent, bind, getThis, interact, response_text.
  rewrite Hg. cbn [this history].
  destruct (generateContent w (history s) g [TextPart "Hello"]) as [e | [txt | e]];
    cbn [ret throw]; try reflexivity.
  destruct (txt =? ""); reflexivity.
Qed.

Lemma testConnection_cloud_witness :
  testConnection (serving [] "") (start cloud_helper)
  = (Return (mkConnection false (Some "Empty response from Gemini")),
     mkState cloud_helper
       [EvGenerateContent (getGenerativeModel "key") [TextPart "Hello"]]).
Proof.
  apply (testConnection_cloud (serving [] "") (start cloud_helper)
           (getGenerativeModel "key")); reflexivity.
Defined.

(** ** [initializeOllamaModel] and [switchToOllama] *)

(** Every run of [initializeOllamaModel] returns, writes no field but the
    model name, and ends with the name it started with or with a name some
    listing of the server carried. *)
Lemma initialize_result (w : World) (s : State) :
  exists name h,
    initializeOllamaModel w s = (Return tt, mkState (set_ollamaModel name (this s)) h)
    /\ later (history s) h
    /\ (name = ollamaModel (this s)
        \/ exists h', later (history s) h'
                      /\ In name (names_of (fetchTags w h' (tags_url (this s))))).
Proof.
  destruct (useOllama (this s)) eqn:Hmode.
  - destruct (names_of (fetchTags w (history s) (tags_url (this s))))
      as [| first rest] eqn:Hnames.
    + exists (ollamaModel (this s)), (EvFetchTags (tags_url (this s)) :: history s).
      rewrite (initialize_no_models w s Hmode Hnames), set_ollamaModel_same.
      split; [reflexivity | split; [apply later_cons, later_refl | left; reflexivity]].
    + assert (Hchosen :
        kept_or_first (first :: rest) (ollamaModel (this s)) = ollamaModel (this s)
        \/ In (kept_or_first (first :: rest) (ollamaModel (this s))) (first :: rest)).
      { unfold kept_or_first.
        destruct (includes (first :: rest) (ollamaModel (this s)));
          [left; reflexivity | right; left; reflexivity]. }
      destruct (answers (fetchGenerate w (EvFetchTags (tags_url (this s)) :: history s)
                  (generate_url (this s))
                  (request_for (kept_or_first (first :: rest) (ollamaModel (this s)))
                     "Hello"))) eqn:Hprobe.
      * rewrite (initialize_probe_answers w s Hmode first rest Hnames)
          by (rewrite Hnames; exact Hprobe).
        rewrite Hnames. eexists; eexists. split; [reflexivity |].
        split; [apply later_cons, later_cons, later_refl |].
        destruct Hchosen as [-> | Hin]; [left; reflexivity |].
        right. exists (history s). split; [apply later_refl |].
        rewrite Hnames. exact Hin.
      * rewrite (initialize_probe_fails w s Hmode first rest Hnames)
          by (rewrite Hnames; exact Hprobe).
        rewrite Hnames. eexists; eexists. split; [reflexivity |].
        split; [apply later_cons, later_cons, later_cons, later_refl |].
        match goal with
        | |- context [hd _ (names_of (fetchTags w ?h _))] =>
            destruct (names_of (fetchTags w h (tags_url (this s))))
              as [| again others] eqn:Hagain; cbn [hd]
        end.
        -- destruct Hchosen as [-> | Hin]; [left; reflexivity |].
           right. exists (history s). split; [apply later_refl |].
           rewrite Hnames. exact Hin.
        -- right. eexists. split; [| rewrite Hagain; left; reflexivity].
           apply later_cons, later_cons, later_refl.
  - exists (ollamaModel (this s)), (history s).
    rewrite (initialize_cloud w s Hmode), set_ollamaModel_same, state_eta.
    split; [reflexivity | split; [apply later_refl | left; reflexivity]].
Qed.

(** X6: [initializeOllamaModel] never throws, and it writes no field but the
    model name: the cloud handle, the provider mode and the endpoint are what
    they were. *)
Theorem initializeOllamaModel_writes_only_name (w : World) (s : State) :
  fst (initializeOllamaModel w s) = Return tt
  /\ model (this (snd (initializeOllamaModel w s))) = model (this s)
  /\ useOllama (this (snd (initializeOllamaModel w s))) = useOllama (this s)
  /\ ollamaUrl (this (snd (initializeOllamaModel w s))) = ollamaUrl (this s).
Proof.
  destruct (initialize_result w s) as (name & h & -> & _).
  repeat split.
Qed.

(** X7: the model name [initializeOllamaModel] leaves is never made up: it
    is the name configured before, or a name that a listing fetched during
    the call carried. *)
Theorem initializeOllamaModel_name_is_listed (w : World) (s : State) :
  ollamaModel (this (snd (initializeOllamaModel w s))) = ollamaModel (this s)
  \/ exists h,
       later (history s) h
       /\ In (ollamaModel (this (snd (initializeOllamaModel w s))))
            (names_of (fetchTags w h (tags_url (this s)))).
Proof.
  destruct (initialize_result w s) as (name & h & -> & _ & Hname).
  exact Hname.
Qed.

(** X8: [switchToOllama] without a model name, when the listing comes back
    empty (no model installed, or the server unreachable), keeps the
    configured name and returns: one listing request, no probe. *)
Theorem switchToOllama_no_models (w : World) (s : State) (model url : option string) :
  truthy model = false ->
  names_of (fetchTags w (history s) (tags_url (this (entering url s)))) = [] ->
  switchToOllama model url w s
  = (Return tt,
     mkState (this (entering url s))
       (EvFetchTags (tags_url (this (entering url s))) :: history s)).
Proof.
  intros Hmodel Hnames.
  rewrite switchToOllama_unnamed by exact Hmodel.
  apply (initialize_no_models w (entering url s)); [reflexivity | exact Hnames].
Qed.

Lemma switchToOllama_no_models_witness :
  switchToOllama None None offline (start misconfigured_helper)
  = (Return tt,
     mkState misconfigured_helper [EvFetchTags "http://localhost:11434/api/tags"]).
Proof.
  apply (switchToOllama_no_models offline (start misconfigured_helper) None None);
    reflexivity.
Defined.

(** X9: [switchToOllama] never throws, whatever its arguments and whatever
    the server does. *)
Theorem switchToOllama_never_throws (w : World) (s : State)
    (model url : option string) :
  fst (switchToOllama model url w s) = Return tt.
Proof.
  destruct (truthy model) eqn:Hmodel.
  - destruct model as [m |]; [| discriminate].
    rewrite switchToOllama_named by exact Hmodel. reflexivity.
  - rewrite switchToOllama_unnamed by exact Hmodel.
    destruct (initialize_result w (entering url s)) as (name & h & -> & _).
    reflexivity.
Qed.

(** X10: after [switchToOllama] with a model name and an endpoint, which
    sends nothing, the next chat is one POST to that endpoint for that
    model with the message as prompt. *)
Theorem switchToOllama_then_chat (w : World) (s : State) (m u msg : string) :
  truthy (Some m) = true ->
  truthy (Some u) = true ->
  history (snd (switchToOllama (Some m) (Some u) w s)) = history s
  /\ history (snd (chat msg w (snd (switchToOllama (Some m) (Some u) w s))))
     = EvFetchGenerate (u ++ "/api/generate") (request_for m msg) :: history s.
Proof.
  intros Hm Hu.
  rewrite switchToOllama_named by exact Hm.
  split; [reflexivity |].
  rewrite chat_local by reflexivity.
  rewrite callOllama_state. cbn [snd history this].
  unfold generate_url, entering, or_default. cbn [this ollamaUrl ollamaModel
    set_ollamaModel set_ollamaUrl set_useOllama].
  unfold truthy in Hu. destruct (u =? ""); [discriminate | reflexivity].
Qed.

Lemma switchToOllama_then_chat_witness :
  history (snd (switchToOllama (Some "mistral") (Some "http://gpu:11434") offline
                  (start cloud_helper))) = []
  /\ history (snd (chat "Hi" offline
                     (snd (switchToOllama (Some "mistral") (Some "http://gpu:11434")
                             offline (start cloud_helper)))))
     = [EvFetchGenerate "http://gpu:11434/api/generate" (request_for "mistral" "Hi")].
Proof.
  apply (switchToOllama_then_chat offline (start cloud_helper)
           "mistral" "http://gpu:11434" "Hi"); reflexivity.
Defined.

(** ** [switchToGemini] *)

(** What [switchToGemini] does, in one equation. *)
Lemma switchToGemini_run (w : World) (s : State) (apiKey : option string) :
  switchToGemini apiKey w s
  = if truthy apiKey then
      (Return tt,
       mkState (mkHelper (Some (getGenerativeModel (or_default apiKey "")))
                  false (ollamaModel (this s)) (ollamaUrl (this s)))
         (history s))
    else
      match model (this s) with
      | Some g =>
          (Return tt,
           mkState (mkHelper (Some g) false (ollamaModel (this s)) (ollamaUrl (this s)))
             (history s))
      | None =>
          (Throw (Error "No Gemini API key provided and no existing model instance"), s)
      end.
Proof.
  unfold switchToGemini, bind, getThis, setThis, truthy, or_default, ret, throw,
    set_useOllama, set_model.
  destruct apiKey as [key |].
  - destruct (key =? ""); cbn [negb this history model andb].
    + destruct (model (this s)) as [g |] eqn:Hg; cbn [andb negb];
        [rewrite Hg; reflexivity | destruct s; reflexivity].
    + reflexivity.
  - cbn [this history].
    destruct (model (this s)) as [g |] eqn:Hg; cbn [andb negb];
      [rewrite Hg; reflexivity | destruct s; reflexivity].
Qed.

(** X11: [switchToGemini] throws exactly when no non-empty key is passed and
    the gateway holds no cloud handle; it then leaves the gateway as it was,
    in particular in local mode. *)
Theorem switchToGemini_throws_iff (w : World) (s : State) (apiKey : option string) :
  thrown (fst (switchToGemini apiKey w s))
  = negb (truthy apiKey) && match model (this s) with None => true | Some _ => false end
  /\ (thrown (fst (switchToGemini apiKey w s)) = true ->
      switchToGemini apiKey w s
      = (Throw (Error "No Gemini API key provided and no existing model instance"), s)).
Proof.
  rewrite switchToGemini_run.
  destruct (truthy apiKey); cbn [negb andb].
  - split; [reflexivity | discriminate].
  - destruct (model (this s)); split; first [reflexivity | discriminate].
Qed.

Lemma switchToGemini_throws_iff_witness :
  switchToGemini (Some "") offline (start misconfigured_helper)
  = (Throw (Error "No Gemini API key provided and no existing model instance"),
     start misconfigured_helper).
Proof.
  apply (proj2 (switchToGemini_throws_iff offline (start misconfigured_helper)
                  (Some ""))).
  reflexivity.
Defined.

(** X12: when [switchToGemini] returns, the gateway is in cloud mode with a
    handle, a new one for the key that was passed or else the one it had; the
    local model name and endpoint are kept and nothing was sent. *)
Theorem switchToGemini_returns (w : World) (s s' : State) (apiKey : option string) :
  switchToGemini apiKey w s = (Return tt, s') ->
  useOllama (this s') = false
  /\ model (this s')
     = (if truthy apiKey then Some (getGenerativeModel (or_default apiKey ""))
        else model (this s))
  /\ model (this s') <> None
  /\ ollamaModel (this s') = ollamaModel (this s)
  /\ ollamaUrl (this s') = ollamaUrl (this s)
  /\ history s' = history s.
Proof.
  rewrite switchToGemini_run.
  destruct (truthy apiKey).
  - intros [= <-]. cbn. repeat split. discriminate.
  - destruct (model (this s)) as [g |] eqn:Hg; [| discriminate].
    intros [= <-]. cbn. repeat split. discriminate.
Qed.

Lemma switchToGemini_returns_witness :
  useOllama (this (snd (switchToGemini (Some "k2") offline (start misconfigured_helper))))
  = false
  /\ model (this (snd (switchToGemini (Some "k2") offline (start misconfigured_helper))))
     = Some (getGenerativeModel "k2").
Proof.
  pose proof (switchToGemini_returns offline (start misconfigured_helper)
                (snd (switchToGemini (Some "k2") offline (start misconfigured_helper)))
                (Some "k2") eq_refl) as (Hmode & Hhandle & _).
  split; [exact Hmode | exact Hhandle].
Defined.

(** X13: switching to the local backend and back without a key returns the
    gateway to cloud mode with the handle it had, whatever the arguments of
    the first switch and whatever the server did; a generation call made
    then gives what the original gateway would give at that point. *)
Theorem switch_there_and_back (w : World) (s : State) (g : GenerativeModel)
    (model0 url : option string) :
  model (this s) = Some g ->
  let there := snd (switchToOllama model0 url w s) in
  let back := snd (switchToGemini None w there) in
  fst (switchToGemini None w there) = Return tt
  /\ useOllama (this back) = false
  /\ model (this back) = Some g
  /\ history back = history there
  /\ (forall gen,
        fst (generate gen w back)
        = fst (generate gen w (mkState (this s) (history there)))).
Proof.
  intros Hg. cbv zeta.
  assert (Hthere : model (this (snd (switchToOllama model0 url w s))) = Some g).
  { destruct (truthy model0) eqn:Hm.
    - destruct model0 as [m |]; [| discriminate].
      rewrite switchToOllama_named by exact Hm. exact Hg.
    - rewrite switchToOllama_unnamed by exact Hm.
      destruct (initialize_result w (entering url s)) as (name & h & -> & _).
      exact Hg. }
  rewrite switchToGemini_run. cbn [truthy]. rewrite Hthere. cbn [fst snd this history
    useOllama model].
  repeat split.
  intro gen. apply blind_generate. split; cbn [this history model]; congruence.
Qed.

Lemma switch_there_and_back_witness :
  fst (switchToGemini None (serving ["llama3.2"] "Hi")
         (snd (switchToOllama None None (serving ["llama3.2"] "Hi") (start cloud_helper))))
  = Return tt
  /\ model (this (snd (switchToGemini None (serving ["llama3.2"] "Hi")
                         (snd (switchToOllama None None (serving ["llama3.2"] "Hi")
                                 (start cloud_helper))))))
     = Some (getGenerativeModel "key").
Proof.
  pose proof (switch_there_and_back (serving ["llama3.2"] "Hi") (start cloud_helper)
                (getGenerativeModel "key") None None eq_refl)
    as (Hret & _ & Hhandle & _).
  split; [exact Hret | exact Hhandle].
Defined.

(** ** States the public interface can produce *)

Lemma or_default_not_empty (o : option string) (dflt : string) :
  dflt <> "" -> or_default o dflt <> "".
Proof.
  intros Hd. unfold or_default. destruct o as [u |]; [| exact Hd].
  destruct (u =? "") eqn:Hu; [exact Hd |].
  apply String.eqb_neq. exact Hu.
Qed.

Lemma usable_constructor (apiKey : option string) (useOllama0 : bool)
    (ollamaModel0 ollamaUrl0 : option string) (o : LLMHelper) :
  constructor apiKey useOllama0 ollamaModel0 ollamaUrl0 = Return o -> usable o.
Proof.
  unfold constructor, usable. destruct useOllama0.
  - intros [= <-]. cbn. repeat split.
    + left; reflexivity.
    + apply or_default_not_empty. discriminate.
    + discriminate.
  - destruct apiKey as [key |]; [| discriminate].
    destruct (truthy (Some key)); [| discriminate].
    intros [= <-]. cbn. repeat split.
    + right; discriminate.
    + discriminate.
    + intros g [= <-]. reflexivity.
Qed.

Lemma usable_name (o : LLMHelper) (name : string) :
  usable o -> usable (set_ollamaModel name o).
Proof. intros H. exact H. Qed.

Lemma usable_perform (w : World) (s : State) (op : Operation) :
  usable (this s) -> usable (this (snd (perform op w s))).
Proof.
  intros Hus. pose proof Hus as (Hback & Hurl & Hid).
  destruct op as [q | m u | k]; cbn [perform].
  - unfold fmap, bind. pose proof (keeps_query q w s) as Hkeep.
    destruct (query q w s) as [[v | e] s1]; cbn [snd ret] in *; rewrite Hkeep;
      repeat split; assumption.
  - unfold fmap, bind.
    assert (Hsw : usable (this (snd (switchToOllama m u w s)))).
    { assert (Hent : usable (this (entering u s))).
      { unfold usable, entering, or_default. cbn. repeat split.
        - left; reflexivity.
        - destruct u as [u |]; [| exact Hurl].
          destruct (u =? "") eqn:Hu; [exact Hurl | apply String.eqb_neq; exact Hu].
        - exact Hid. }
      destruct (truthy m) eqn:Hm.
      - destruct m as [m |]; [| discriminate].
        rewrite switchToOllama_named by exact Hm. exact Hent.
      - rewrite switchToOllama_unnamed by exact Hm.
        destruct (initialize_result w (entering u s)) as (name & h & -> & _).
        exact Hent. }
    destruct (switchToOllama m u w s) as [[v | e] s1]; exact Hsw.
  - unfold fmap, bind. rewrite switchToGemini_run.
    destruct (truthy k).
    + cbn. repeat split.
      * right; discriminate.
      * exact Hurl.
      * intros g [= <-]. reflexivity.
    + destruct (model (this s)) as [g |] eqn:Hg; cbn.
      * repeat split; [right; discriminate | exact Hurl | ].
        intros g' [= <-]. apply Hid. reflexivity.
      * exact Hus.
Qed.

Lemma usable_reachable (w : World) (s : State) :
  reachable w s -> usable (this s).
Proof.
  induction 1 as [k u m l o Hnew | s Hreach IH | s op Hreach IH].
  - exact (usable_constructor k u m l o Hnew).
  - destruct (initialize_result w s) as (name & h & -> & _).
    apply usable_name. exact IH.
  - apply usable_perform. exact IH.
Qed.

(** X14: in every state the public interface can produce, a backend can be
    asked (the gateway is in local mode or holds a cloud handle), the
    endpoint is not the empty string, and a cloud handle is one for
    [gemini-2.0-flash]. *)
Theorem reachable_usable (w : World) (s : State) :
  reachable w s -> usable (this s).
Proof. apply usable_reachable. Qed.

Lemma reachable_usable_witness :
  usable (this (snd (perform (OSwitchToGemini (Some "k2")) offline
                       (snd (perform (OSwitchToOllama None None) offline
                               (start cloud_helper)))))).
Proof.
  apply (reachable_usable offline).
  apply reach_perform. apply reach_perform.
  apply (reach_constructor offline (Some "key") false None None). reflexivity.
Defined.

(** X15: in every such state a chat asks a backend exactly once: the
    branch that gives up without a provider is never taken. *)
Theorem reachable_chat_asks_once (w : World) (s : State) (msg : string) :
  reachable w s ->
  exists ev,
    history (snd (chat msg w s)) = ev :: history s
    /\ generation_requests [ev] = 1.
Proof.
  intros Hreach. apply usable_reachable in Hreach as (Hback & _ & _).
  destruct (useOllama (this s)) eqn:Hmode.
  - rewrite chat_local by exact Hmode. rewrite callOllama_state.
    eexists. split; reflexivity.
  - destruct Hback as [Habs | Hhandle]; [discriminate |].
    destruct (model (this s)) as [g |] eqn:Hg; [| contradiction].
    exists (EvGenerateContent g [TextPart msg]). split; [| reflexivity].
    unfold chat, chatWithGemini, try_catch, bind at 1, getThis at 1.
    rewrite Hmode, Hg.
    unfold bind, model_generateContent, bind, getThis, interact, response_text.
    rewrite Hg. cbn [this history].
    destruct (generateContent w (history s) g [TextPart msg]) as [e | [txt | e]];
      reflexivity.
Qed.

Lemma reachable_chat_asks_once_witness :
  exists ev,
    history (snd (chat "Hi" offline (start cloud_helper))) = [ev]
    /\ generation_requests [ev] = 1.
Proof.
  apply (reachable_chat_asks_once offline (start cloud_helper) "Hi").
  apply (reach_constructor offline (Some "key") false None None). reflexivity.
Defined.

(** X16: a gateway constructed in local mode holds no cloud handle even when
    a key is passed along, so every generation call on it throws until
    [switchToGemini] is given a key. *)
Theorem constructor_local_ignores_key (w : World) (apiKey ollamaModel0 ollamaUrl0 : option string)
    (gen : Generation) (h : History) :
  exists o,
    constructor apiKey true ollamaModel0 ollamaUrl0 = Return o
    /\ model o = None
    /\ thrown (fst (generate gen w (mkState o h))) = true.
Proof.
  eexists. split; [reflexivity |]. split; [reflexivity |].
  match goal with
  | |- thrown (fst (generate gen w ?st)) = true =>
      destruct (generate_null w gen st eq_refl) as (e & -> & _)
  end.
  reflexivity.
Qed.

(** ** The generation calls, request by request *)

(** The common tail of the generation methods, reply by reply. *)
Lemma send_run (w : World) (s : State) (req : list Part) :
  send req w s
  = match model (this s) with
    | None => (Throw null_handle, s)
    | Some m =>
        let sent := EvGenerateContent m req :: history s in
        match generateContent w (history s) m req with
        | CloudRejects e => (Throw e, mkState (this s) sent)
        | CloudResponse (TextThrows e) => (Throw e, mkState (this s) sent)
        | CloudResponse (Text txt) =>
            (Return (mkResult txt (dateNow w sent)),
             mkState (this s) (EvDateNow :: sent))
        end
    end.
Proof.
  unfold send, model_generateContent, text_and_timestamp, response_text, Date_now,
    bind, getThis, interact, ret, throw, null_handle.
  destruct (model (this s)) as [m |]; [| reflexivity].
  cbn [this history].
  destruct (generateContent w (history s) m req) as [e | [txt | e]]; reflexivity.
Qed.

Lemma fileToGenerativePart_run (w : World) (s : State) (p : string) :
  fileToGenerativePart p w s
  = (match readFile w (history s) p with
     | FileRejects e => Throw e
     | FileBytes bytes => Return (InlinePart (mkInline (base64 bytes) "image/png"))
     end,
     mkState (this s) (EvReadFile p :: history s)).
Proof.
  unfold fileToGenerativePart, fs_readFile, bind, interact.
  destruct (readFile w (history s) p); reflexivity.
Qed.

(** Reading the attachments: every path is read, in order, whatever the
    outcome; a result has one part per path, each a PNG in base64; an error
    is one the file system gave for one of the paths. *)
Lemma reads_run (w : World) (ps : list string) :
  forall s : State,
    snd (Promise_all (map fileToGenerativePart ps) w s)
    = mkState (this s) (reads_of ps ++ history s)%list
    /\ match fst (Promise_all (map fileToGenerativePart ps) w s) with
       | Return parts =>
           length parts = length ps
           /\ Forall (inline_file "image/png") parts
           /\ all_read w ps
       | Throw e => exists h p, In p ps /\ readFile w h p = FileRejects e
       end.
Proof.
  induction ps as [| p rest IH]; intro s; cbn [map Promise_all].
  - split; [destruct s; reflexivity |].
    cbn [fst ret]. unfold all_read. repeat split; constructor.
  - rewrite fileToGenerativePart_run.
    specialize (IH (mkState (this s) (EvReadFile p :: history s))).
    destruct IH as [Hst Hout]. cbn [this history] in Hst.
    assert (Hhist : (reads_of rest ++ EvReadFile p :: history s
                     = reads_of (p :: rest) ++ history s)%list).
    { unfold reads_of. cbn [map rev]. rewrite <- app_assoc. reflexivity. }
    destruct (Promise_all (map fileToGenerativePart rest) w
                (mkState (this s) (EvReadFile p :: history s))) as [os s2];
      cbn [fst snd] in *; subst s2; rewrite Hhist.
    destruct (readFile w (history s) p) as [e | bytes] eqn:Hfile.
    + split; [reflexivity |].
      exists (history s), p. split; [left; reflexivity | exact Hfile].
    + split; [reflexivity |].
      destruct os as [parts | e].
      * destruct Hout as (Hlen & Hparts & Hread). repeat split.
        -- cbn [length]. rewrite Hlen. reflexivity.
        -- constructor; [exists bytes; reflexivity | exact Hparts].
        -- unfold all_read.
           constructor; [exists (history s), bytes; exact Hfile | exact Hread].
      * destruct Hout as (h & q & Hin & Hq).
        exists h, q. split; [right; exact Hin | exact Hq].
Qed.

(** A file that can never be read makes the reading fail. *)
Lemma reads_unreadable (w : World) (ps : list string) (p : string) :
  In p ps ->
  (forall h, exists e, readFile w h p = FileRejects e) ->
  forall s, thrown (fst (Promise_all (map fileToGenerativePart ps) w s)) = true.
Proof.
  intros Hin Hbad s. destruct (reads_run w ps s) as [_ Hout].
  destruct (fst (Promise_all (map fileToGenerativePart ps) w s)) as [parts | e];
    [| reflexivity].
  destruct Hout as (_ & _ & Hread).
  unfold all_read in Hread. rewrite Forall_forall in Hread.
  destruct (Hread p Hin) as (h & bytes & Hok).
  destruct (Hbad h) as (e & He). congruence.
Qed.

(** [try { m } catch (err) { throw err }] is [m]. *)
Lemma try_rethrow {A} (m : M A) (w : World) (s : State) :
  try_catch m (fun err => throw err) w s = m w s.
Proof.
  unfold try_catch, throw. destruct (m w s) as [[a | e] s']; reflexivity.
Qed.

Lemma send_ends (w : World) (g : Generation) (s : State) (req : list Part) :
  shaped g req ->
  all_read w (files_of g) ->
  exists tail,
    snd (send req w (mkState (this s) (reads_of (files_of g) ++ history s)%list))
    = mkState (this s) (tail ++ reads_of (files_of g) ++ history s)%list
    /\ ends_with w g s
         (fst (send req w (mkState (this s) (reads_of (files_of g) ++ history s)%list)))
         tail.
Proof.
  intros Hshape Hread. rewrite send_run. cbn [this history]. unfold ends_with.
  destruct (model (this s)) as [m |] eqn:Hm.
  - cbv zeta.
    destruct (generateContent w (reads_of (files_of g) ++ history s)%list m req)
      as [e | [txt | e]] eqn:Hreply; cbn [fst snd].
    + exists [EvGenerateContent m req]. split; [reflexivity |].
      right. exists m, req. repeat split; try assumption. left; exact Hreply.
    + exists [EvDateNow; EvGenerateContent m req]. split; [reflexivity |].
      exists m, req. repeat split; assumption.
    + exists [EvGenerateContent m req]. split; [reflexivity |].
      right. exists m, req. repeat split; try assumption. right; exact Hreply.
  - exists []. split; [reflexivity |]. left. split; [reflexivity |].
    left. split; reflexivity.
Qed.

(** Every generation call reads all its files first, in order, and then
    asks the cloud at most once, with a request of its form. *)
Lemma generate_run (w : World) (g : Generation) (s : State) :
  exists tail,
    snd (generate g w s)
    = mkState (this s) (tail ++ reads_of (files_of g) ++ history s)%list
    /\ ends_with w g s (fst (generate g w s)) tail.
Proof.
  assert (Hfiles : forall ps k,
            files_of g = ps ->
            (forall parts,
               length parts = length ps ->
               Forall (inline_file "image/png") parts -> shaped g (k parts)) ->
            exists tail,
              snd ((imageParts <- Promise_all (map fileToGenerativePart ps) ;;
                    send (k imageParts)) w s)
              = mkState (this s) (tail ++ reads_of (files_of g) ++ history s)%list
              /\ ends_with w g s
                   (fst ((imageParts <- Promise_all (map fileToGenerativePart ps) ;;
                          send (k imageParts)) w s)) tail).
  { intros ps k Hps Hk. subst ps. unfold bind.
    destruct (reads_run w (files_of g) s) as [Hst Hout].
    destruct (Promise_all (map fileToGenerativePart (files_of g)) w s)
      as [[parts | e] s1]; cbn [fst snd] in Hst, Hout; subst s1.
    - destruct Hout as (Hlen & Hparts & Hread).
      apply send_ends; [apply Hk; assumption | exact Hread].
    - exists []. split; [reflexivity |].
      unfold ends_with. cbn [fst]. left. split; [reflexivity | right]. exact Hout. }
  assert (Hplain : forall req,
            files_of g = [] ->
            shaped g req ->
            exists tail,
              snd (send req w s)
              = mkState (this s) (tail ++ reads_of (files_of g) ++ history s)%list
              /\ ends_with w g s (fst (send req w s)) tail).
  { intros req Hnone Hshape.
    pose proof (send_ends w g s req Hshape) as Hsend.
    rewrite Hnone in Hsend |- *. cbn [reads_of map rev app] in Hsend |- *.
    rewrite state_eta in Hsend. apply Hsend. constructor. }
  assert (Hfile : forall p k,
            files_of g = [p] ->
            (forall bytes, shaped g (k bytes)) ->
            exists tail,
              snd ((f <- fs_readFile p ;;
                    match f with
                    | FileRejects e => throw e
                    | FileBytes bytes => send (k bytes)
                    end) w s)
              = mkState (this s) (tail ++ reads_of (files_of g) ++ history s)%list
              /\ ends_with w g s
                   (fst ((f <- fs_readFile p ;;
                          match f with
                          | FileRejects e => throw e
                          | FileBytes bytes => send (k bytes)
                          end) w s)) tail).
  { intros p k Hp Hk. unfold bind at 1 2, fs_readFile, interact.
    destruct (readFile w (history s) p) as [e | bytes] eqn:Hread.
    - exists []. split; [rewrite Hp; reflexivity |].
      unfold ends_with, throw. cbn [fst]. left. split; [reflexivity | right].
      exists (history s), p. split; [rewrite Hp; left; reflexivity | exact Hread].
    - pose proof (send_ends w g s (k bytes) (Hk bytes)) as Hsend.
      rewrite Hp in Hsend |- *. apply Hsend. unfold all_read.
      constructor; [exists (history s), bytes; exact Hread | constructor]. }
  destruct g; cbn [generate];
    unfold generateSolution, extractProblemFromImages, debugSolutionWithImages,
      analyzeImageFile, analyzeAudioFile, analyzeAudioFromBase64;
    rewrite try_rethrow.
  - apply (Hplain [TextPart (systemPrompt ++ nl ++ _)]); [reflexivity |].
    eexists; eexists. split; reflexivity.
  - apply (Hfiles imagePaths (fun parts => TextPart (systemPrompt ++ nl ++ _) :: parts));
      [reflexivity |].
    intros parts Hlen Hparts. eexists; eexists. split; [reflexivity |].
    split; assumption.
  - apply (Hfiles paths (fun parts => TextPart (systemPrompt ++ nl ++ _) :: parts));
      [reflexivity |].
    intros parts Hlen Hparts. eexists; eexists. split; [reflexivity |].
    split; assumption.
  - apply (Hfile imagePath
             (fun bytes => [TextPart (systemPrompt ++ nl ++ _);
                            InlinePart (mkInline (base64 bytes) "image/png")]));
      [reflexivity |].
    intro bytes. eexists; eexists. split; [reflexivity |].
    eexists. split; [reflexivity | exists bytes; reflexivity].
  - apply (Hfile audioPath
             (fun bytes => [TextPart (systemPrompt ++ nl ++ _);
                            InlinePart (mkInline (base64 bytes) "audio/mp3")]));
      [reflexivity |].
    intro bytes. eexists; eexists. split; [reflexivity |].
    eexists. split; [reflexivity | exists bytes; reflexivity].
  - apply (Hplain [TextPart (systemPrompt ++ nl ++ _);
                   InlinePart (mkInline data0 mimeType0)]); [reflexivity |].
    eexists; eexists. split; reflexivity.
Qed.

(** ** Results of the generation calls *)

(** C6, as stated, fails on "text is non-empty": when the cloud answers with
    the empty text, [generateSolution] returns it as a successful result. *)
Lemma generateSolution_returns_empty_text :
  fst (generate (GText "{}") (serving [] "") (start cloud_helper))
  = Return (mkResult "" 1)
  /\ ~ (forall w g s r, fst (generate g w s) = Return r -> text r <> "").
Proof.
  split; [reflexivity |].
  intros Hclaim.
  apply (Hclaim (serving [] "") (GText "{}") (start cloud_helper) (mkResult "" 1));
    reflexivity.
Qed.

(** C6 (amended): for every prompt type, a generation call that returns
    carries as text exactly the text the cloud replied to its request, which
    may be empty, and as timestamp the clock read right after that reply;
    when the clock does not run backwards, the timestamp of any later
    generation call that returns is not smaller. *)
Theorem generate_text_and_timestamps (w : World) (g1 : Generation)
    (s s1 : State) (r1 : GenerationResult) :
  generate g1 w s = (Return r1, s1) ->
  (exists m req,
     let read := (reads_of (files_of g1) ++ history s)%list in
     model (this s) = Some m
     /\ generateContent w read m req = CloudResponse (Text (text r1))
     /\ timestamp r1 = dateNow w (EvGenerateContent m req :: read)
     /\ history s1 = EvDateNow :: EvGenerateContent m req :: read)
  /\ (clock_monotone w ->
      forall (g2 : Generation) (s1' s2 : State) (r2 : GenerationResult),
        later (history s1) (history s1') ->
        generate g2 w s1' = (Return r2, s2) ->
        (timestamp r1 <= timestamp r2)%Z).
Proof.
  intros Hfirst.
  pose proof (generate_returns w g1 s s1 r1 Hfirst)
    as (m1 & req1 & h1 & Hm1 & _ & Hreply1 & Hts1 & Hh1).
  split.
  - destruct (generate_run w g1 s) as (tail & Hst & Hend).
    rewrite Hfirst in Hst, Hend. cbn [fst snd ends_with] in Hst, Hend.
    destruct Hend as (m & req & -> & _ & _ & _).
    rewrite Hst in Hh1. cbn [history app] in Hh1.
    injection Hh1 as Hm Hreq Hh. subst m1 req1 h1.
    exists m, req. cbv zeta.
    repeat split; first [assumption | rewrite Hst; reflexivity].
  - intros Hclock g2 s1' s2 r2 Hlater Hsecond.
    apply generate_returns in Hsecond as (m2 & req2 & h2 & _ & Hl2 & _ & Hts2 & _).
    rewrite Hts1, Hts2. apply clock_later; [exact Hclock |].
    apply later_cons. eapply later_trans; [| exact Hl2].
    eapply later_trans; [| exact Hlater].
    rewrite Hh1. apply later_cons, later_refl.
Qed.

Lemma generate_text_and_timestamps_witness :
  (exists m req,
     generateContent (serving [] "I test APIs.") [] m req
     = CloudResponse (Text "I test APIs.")
     /\ 1%Z = dateNow (serving [] "I test APIs.") [EvGenerateContent m req])
  /\ (1 <= 3)%Z.
Proof.
  pose proof (generate_text_and_timestamps (serving [] "I test APIs.")
                (GText "{}") (start cloud_helper)
                (snd (generate (GText "{}") (serving [] "I test APIs.")
                        (start cloud_helper)))
                (mkResult "I test APIs." 1) eq_refl)
    as [(m & req & _ & Hreply & Hts & _) Hlater].
  split.
  - exists m, req. split; [exact Hreply | exact Hts].
  - apply (Hlater (fun h ev => ltac:(cbn; lia))
             (GAudioBase64 "TWFu" "audio/mp3")
             (snd (generate (GText "{}") (serving [] "I test APIs.")
                     (start cloud_helper)))
             (snd (generate (GAudioBase64 "TWFu" "audio/mp3")
                     (serving [] "I test APIs.")
                     (snd (generate (GText "{}") (serving [] "I test APIs.")
                             (start cloud_helper)))))
             (mkResult "I test APIs." 3)).
    + exists []. reflexivity.
    + reflexivity.
Defined.

(** ** Multimodal calls and the provider mode *)





Example extractProblemFromImages_null_handle :
  fst (extractProblemFromImages ["shot.png"] (serving ["llava"] "")
         (start misconfigured_helper))
  = Throw (TypeError "Cannot read properties of null (reading 'generateContent')").
Proof. reflexivity. Qed.

(** X17: a generation call that returns has read all its files, in order,
    and then sent one request to the cloud: one text made of the persona
    preamble and the instructions of the method, followed by the attachments
    of its kind, a PNG part per image, an [audio/mp3] part for an audio
    file whatever its name, the data and mime type as passed for base64
    audio.  The text of the result is the text of the reply to it. *)
Theorem generate_request_shape (w : World) (g : Generation) (s s' : State)
    (r : GenerationResult) :
  generate g w s = (Return r, s') ->
  exists m req,
    history s'
    = (EvDateNow :: EvGenerateContent m req :: reads_of (files_of g) ++ history s)%list
    /\ shaped g req
    /\ generateContent w (reads_of (files_of g) ++ history s)%list m req
       = CloudResponse (Text (text r)).
Proof.
  intros Hrun. destruct (generate_run w g s) as (tail & Hst & Hend).
  rewrite Hrun in Hst, Hend. cbn [fst snd] in Hst, Hend. subst s'.
  destruct Hend as (m & req & -> & Hshape & _ & Hreply).
  exists m, req. repeat split; assumption.
Qed.

Lemma generate_request_shape_witness :
  exists m req,
    history (snd (generate (GAudio "question.wav") (serving [] "Sure.")
                    (start cloud_helper)))
    = [EvDateNow; EvGenerateContent m req; EvReadFile "question.wav"]
    /\ shaped (GAudio "question.wav") req
    /\ generateContent (serving [] "Sure.") [EvReadFile "question.wav"] m req
       = CloudResponse (Text "Sure.").
Proof.
  apply (generate_request_shape (serving [] "Sure.") (GAudio "question.wav")
           (start cloud_helper)
           (snd (generate (GAudio "question.wav") (serving [] "Sure.")
                   (start cloud_helper)))
           (mkResult "Sure." 2)).
  reflexivity.
Defined.

(** X18: an error thrown by a generation call is never one of the
    gateway's making, apart from the dereference of a missing handle: it is
    the error the file system gave for one of the files, or the error with
    which the cloud rejected the request or refused the text, unchanged. *)
Theorem generate_throws_origin (w : World) (g : Generation) (s : State) (e : JsError) :
  fst (generate g w s) = Throw e ->
  (model (this s) = None /\ e = null_handle)
  \/ (exists h p, In p (files_of g) /\ readFile w h p = FileRejects e)
  \/ (exists h m req,
        generateContent w h m req = CloudRejects e
        \/ generateContent w h m req = CloudResponse (TextThrows e)).
Proof.
  intros Hrun. destruct (generate_run w g s) as (tail & _ & Hend).
  rewrite Hrun in Hend. cbn [ends_with] in Hend.
  destruct Hend as [[_ [Hnull | Hfile]] | (m & req & _ & _ & _ & Hcloud)].
  - left. exact Hnull.
  - right. left. exact Hfile.
  - right. right. eexists; exists m, req. exact Hcloud.
Qed.

Lemma generate_throws_origin_witness :
  (model (this (start cloud_helper)) = None /\ fetch_failed = null_handle)
  \/ (exists h p, In p (files_of (GText "{}")) /\ readFile offline h p = FileRejects fetch_failed)
  \/ (exists h m req,
        generateContent offline h m req = CloudRejects fetch_failed
        \/ generateContent offline h m req = CloudResponse (TextThrows fetch_failed)).
Proof.
  apply (generate_throws_origin offline (GText "{}") (start cloud_helper) fetch_failed).
  reflexivity.
Defined.

(** X19: when one of the files of a generation call can never be read, the
    call throws; by then every file has been asked for, in order, and
    nothing has been sent to the cloud. *)
Theorem generate_unreadable_file (w : World) (g : Generation) (s : State) (p : string) :
  In p (files_of g) ->
  (forall h, exists e, readFile w h p = FileRejects e) ->
  thrown (fst (generate g w s)) = true
  /\ snd (generate g w s) = mkState (this s) (reads_of (files_of g) ++ history s)%list.
Proof.
  intros Hin Hbad.
  assert (Hnot : ~ all_read w (files_of g)).
  { unfold all_read. rewrite Forall_forall. intro Hread.
    destruct (Hread p Hin) as (h & bytes & Hok).
    destruct (Hbad h) as (e & He). congruence. }
  destruct (generate_run w g s) as (tail & Hst & Hend).
  destruct (fst (generate g w s)) as [r | e]; cbn [ends_with] in Hend.
  - destruct Hend as (m & req & _ & _ & Hread & _). contradiction.
  - destruct Hend as [[-> _] | (m & req & _ & _ & Hread & _)]; [| contradiction].
    split; [reflexivity | exact Hst].
Qed.

Lemma generate_unreadable_file_witness :
  thrown (fst (generate (GImages ["a.png"; "b.png"]) offline (start cloud_helper))) = true
  /\ snd (generate (GImages ["a.png"; "b.png"]) offline (start cloud_helper))
     = mkState cloud_helper [EvReadFile "b.png"; EvReadFile "a.png"].
Proof.
  apply (generate_unreadable_file offline (GImages ["a.png"; "b.png"])
           (start cloud_helper) "b.png").
  - cbn. right. left. reflexivity.
  - intro h. eexists. reflexivity.
Defined.

(** X20: in cloud mode a chat sends the bare message, without the persona
    preamble, and hands back the reply as it is: the text even when empty,
    or the cloud's error unchanged.  The local server is not contacted. *)
Theorem chat_cloud (w : World) (s : State) (g : GenerativeModel) (msg : string) :
  useOllama (this s) = false ->
  model (this s) = Some g ->
  chat msg w s
  = (match generateContent w (history s) g [TextPart msg] with
     | CloudRejects e => Throw e
     | CloudResponse (Text txt) => Return txt
     | CloudResponse (TextThrows e) => Throw e
     end,
     mkState (this s) (EvGenerateContent g [TextPart msg] :: history s)).
Proof.
  intros Hmode Hg.
  unfold chat, chatWithGemini. rewrite try_rethrow.
  unfold bind at 1, getThis at 1. rewrite Hmode, Hg.
  unfold bind, model_generateContent, bind, getThis, interact, response_text.
  rewrite Hg. cbn [this history].
  destruct (generateContent w (history s) g [TextPart msg]) as [e | [txt | e]];
    reflexivity.
Qed.

Lemma chat_cloud_witness :
  chat "Hi" (serving [] "") (start cloud_helper)
  = (Return "",
     mkState cloud_helper [EvGenerateContent (getGenerativeModel "key") [TextPart "Hi"]]).
Proof.
  apply (chat_cloud (serving [] "") (start cloud_helper) (getGenerativeModel "key") "Hi");
    reflexivity.
Defined.

(** ** [cleanJsonResponse] *)

Lemma after_prefix_app (prefix rest : CodeUnits) :
  after_prefix prefix (prefix ++ rest)%list = Some rest.
Proof.
  induction prefix as [| c prefix IH]; cbn [after_prefix app].
  - reflexivity.
  - rewrite N.eqb_refl. exact IH.
Qed.

Lemma dropWhile_keeps_last {A} (f : A -> bool) (l : list A) (x : A) :
  f x = false -> exists l', dropWhile f (l ++ [x])%list = (l' ++ [x])%list.
Proof.
  intros Hx. induction l as [| y l IH]; cbn [app dropWhile].
  - rewrite Hx. exists []. reflexivity.
  - destruct (f y); [exact IH | exists (y :: l); reflexivity].
Qed.

Lemma dropWhile_head {A} (f : A -> bool) (l : list A) :
  match dropWhile f l with
  | [] => True
  | x :: _ => f x = false
  end.
Proof.
  induction l as [| y l IH]; cbn [dropWhile]; [exact I |].
  destruct (f y) eqn:Hy; [exact IH | exact Hy].
Qed.

Lemma trim_outer_space (text : CodeUnits) : outer_space (trim text) = false.
Proof.
  unfold outer_space. apply Bool.orb_false_iff. split.
  - unfold trim. pose proof (dropWhile_head isWhiteSpace text) as Hfront.
    destruct (dropWhile isWhiteSpace text) as [| c front]; [reflexivity |].
    cbn [rev].
    destruct (dropWhile_keeps_last isWhiteSpace (rev front) c Hfront) as (kept & ->).
    rewrite rev_app_distr. cbn [rev app]. exact Hfront.
  - unfold trim. rewrite rev_involutive.
    pose proof (dropWhile_head isWhiteSpace (rev (dropWhile isWhiteSpace text)))
      as Hback.
    destruct (dropWhile isWhiteSpace (rev (dropWhile isWhiteSpace text)));
      [reflexivity | exact Hback].
Qed.

(** X21: the text [cleanJsonResponse] returns neither starts nor ends with
    a code unit that [trim] removes, whatever it was given. *)
Theorem cleanJsonResponse_trimmed (text : CodeUnits) :
  outer_space (cleanJsonResponse text) = false.
Proof. unfold cleanJsonResponse. apply trim_outer_space. Qed.

(** X22: a text wrapped in a Markdown fence, opened by three backticks,
    with or without the word [json], and a line feed, and closed by a line
    feed and three backticks, is cleaned to its trimmed inside; an opening
    fence alone is removed all the same. *)
Theorem cleanJsonResponse_unwraps (body : CodeUnits) :
  cleanJsonResponse
    (fence ++ json_word ++ [line_feed] ++ body ++ [line_feed] ++ fence)%list
  = trim body
  /\ cleanJsonResponse (fence ++ [line_feed] ++ body ++ [line_feed] ++ fence)%list
     = trim body
  /\ (after_prefix (rev (line_feed :: fence)) (rev body) = None ->
      cleanJsonResponse (fence ++ json_word ++ [line_feed] ++ body)%list = trim body).
Proof.
  assert (Hclose : replace_closing_fence (body ++ [line_feed] ++ fence)%list = body).
  { unfold replace_closing_fence.
    replace (rev (body ++ [line_feed] ++ fence)%list)
      with (rev (line_feed :: fence) ++ rev body)%list
      by (rewrite rev_app_distr; reflexivity).
    rewrite after_prefix_app. apply rev_involutive. }
  assert (Hjson : forall rest,
            replace_opening_fence (fence ++ json_word ++ [line_feed] ++ rest)%list
            = rest).
  { intro rest. unfold replace_opening_fence.
    replace (fence ++ json_word ++ [line_feed] ++ rest)%list
      with ((fence ++ json_word ++ [line_feed]) ++ rest)%list by reflexivity.
    rewrite after_prefix_app. reflexivity. }
  assert (Hbare : forall rest,
            replace_opening_fence (fence ++ [line_feed] ++ rest)%list = rest).
  { intro rest. reflexivity. }
  unfold cleanJsonResponse. repeat split.
  - rewrite Hjson, Hclose. reflexivity.
  - rewrite Hbare, Hclose. reflexivity.
  - intro Hopen. rewrite Hjson. unfold replace_closing_fence. rewrite Hopen.
    reflexivity.
Qed.

Lemma cleanJsonResponse_unwraps_witness :
  cleanJsonResponse (fence ++ json_word ++ [line_feed] ++ [123; 125; 32])%list%N
  = [123; 125]%N.
Proof.
  apply (proj2 (proj2 (cleanJsonResponse_unwraps [123; 125; 32]%N))).
  reflexivity.
Defined.

(** ** Generation calls and the local server *)

Lemma local_requests_app (evs1 evs2 : list Event) :
  local_requests (evs1 ++ evs2) = local_requests evs1 + local_requests evs2.
Proof. unfold local_requests. rewrite filter_app, length_app. reflexivity. Qed.

Lemma local_requests_reads (ps : list string) : local_requests (reads_of ps) = 0.
Proof.
  unfold reads_of. induction ps as [| p ps IH]; [reflexivity |].
  cbn [map rev]. rewrite local_requests_app, IH. reflexivity.
Qed.

(** X23: no generation call, text call included, ever contacts the local
    server, in whichever mode the gateway is: the interactions it adds are
    file reads, at most one request to the cloud and a reading of the
    clock. *)
Theorem generate_never_asks_local (w : World) (g : Generation) (s : State) :
  exists evs,
    history (snd (generate g w s)) = (evs ++ history s)%list
    /\ local_requests evs = 0.
Proof.
  destruct (generate_run w g s) as (tail & -> & Hend).
  exists (tail ++ reads_of (files_of g))%list. cbn [history].
  split; [apply app_assoc |].
  rewrite local_requests_app, local_requests_reads.
  destruct (fst (generate g w s)) as [r | e]; cbn [ends_with] in Hend.
  - destruct Hend as (m & req & -> & _). reflexivity.
  - destruct Hend as [[-> _] | (m & req & -> & _)]; reflexivity.
Qed.
